(** * mimic_utils.parsers: a shallow embedding and its properties

    The module [src/mimic_utils/parsers.py] remaps raw MIMIC-IV columns to a
    few canonical labels.  Every categorical parser runs the same loop,

      mapped_values = np.empty(n) * np.nan
      for key, regexp in mapping.items():
          mapped_values = np.where(values.str.contains(regexp), key, mapped_values)

    two further functions bucket a re-anchored year and a body-mass index.

    Columns ([pd.Series], [np.ndarray]) are lists, one entry per row.  Text is
    [string] over ASCII; integers are [Z]; the BMI arithmetic is on binary64
    floats ([PrimFloat]), as in the source.  A function that can raise returns
    a [result]. *)

From Stdlib Require Import ZArith List String Ascii Bool Lia Floats DecimalString DecimalPos.
Import ListNotations.

Set Warnings "-inexact-float".

Open Scope string_scope.

(** ** Python exceptions *)

(** The exception classes the modelled code can raise.  [OutOfRangeError] is
    the class the specification names for the year-anchor resolver; the source
    defines no such class and no path of it raises one. *)
Inductive exn : Type :=
| ValueError
| UnboundLocalError
| AttributeError
| OutOfRangeError.

Inductive result (A : Type) : Type :=
| Ok (a : A)
| Raise (e : exn).

Arguments Ok {A} a.
Arguments Raise {A} e.

Definition bind {A B : Type} (r : result A) (k : A -> result B) : result B :=
  match r with
  | Ok a => k a
  | Raise e => Raise e
  end.

Notation "x <- r ;; k" := (bind r (fun x => k))
  (at level 61, r at next level, right associativity).

(** [Series.apply(f)]: [f] on every row in order; the first exception aborts
    the call. *)
Fixpoint apply_rows {A B : Type} (f : A -> result B) (rows : list A) : result (list B) :=
  match rows with
  | [] => Ok []
  | r :: rows' =>
      y <- f r ;;
      ys <- apply_rows f rows' ;;
      Ok (y :: ys)
  end.

(** ** Python strings *)

Module PyStr.

Definition is_upper (c : ascii) : bool :=
  let n := nat_of_ascii c in (65 <=? n)%nat && (n <=? 90)%nat.

(** [str.lower] on one ASCII character. *)
Definition lower_char (c : ascii) : ascii :=
  if is_upper c then ascii_of_nat (nat_of_ascii c + 32) else c.

(** [s.lower()] *)
Fixpoint lower (s : string) : string :=
  match s with
  | EmptyString => EmptyString
  | String c s' => String (lower_char c) (lower s')
  end.

(** [s.startswith(p)] *)
Fixpoint startswith (p s : string) : bool :=
  match p, s with
  | EmptyString, _ => true
  | String _ _, EmptyString => false
  | String a p', String b s' => Ascii.eqb a b && startswith p' s'
  end.

(** [needle in hay]: substring test. *)
Fixpoint contains (needle hay : string) : bool :=
  match hay with
  | EmptyString => startswith needle EmptyString
  | String _ hay' => startswith needle hay || contains needle hay'
  end.

(** Membership of a character in a string (the [chars] argument of
    [strip]). *)
Fixpoint mem (c : ascii) (chars : string) : bool :=
  match chars with
  | EmptyString => false
  | String d chars' => Ascii.eqb c d || mem c chars'
  end.

Fixpoint rev_onto (s acc : string) : string :=
  match s with
  | EmptyString => acc
  | String c s' => rev_onto s' (String c acc)
  end.

Definition rev (s : string) : string := rev_onto s EmptyString.

(** [s.lstrip(chars)] *)
Fixpoint lstrip (chars s : string) : string :=
  match s with
  | EmptyString => EmptyString
  | String c s' => if mem c chars then lstrip chars s' else s
  end.

(** [s.strip(chars)], for an explicit [chars] argument: leading and trailing
    characters that occur in [chars] are removed. *)
Definition strip (chars s : string) : string :=
  rev (lstrip chars (rev (lstrip chars s))).

(** [s.split(sep)] for a one-character separator, as a non-empty list given
    by its head and tail. *)
Fixpoint split (sep : ascii) (s : string) : string * list string :=
  match s with
  | EmptyString => (EmptyString, [])
  | String c s' =>
      let '(h, t) := split sep s' in
      if Ascii.eqb c sep then (EmptyString, h :: t) else (String c h, t)
  end.

(** The characters [int] skips around the number of an ASCII text: TAB, LF,
    VT, FF, CR and the space.  (FS, GS, RS and US are white space for
    [str.isspace] but not for [int], which raises on them.) *)
Definition is_space (c : ascii) : bool :=
  let n := nat_of_ascii c in
  ((9 <=? n)%nat && (n <=? 13)%nat) || (n =? 32)%nat.

Fixpoint lstrip_space (s : string) : string :=
  match s with
  | EmptyString => EmptyString
  | String c s' => if is_space c then lstrip_space s' else s
  end.

Definition strip_space (s : string) : string :=
  rev (lstrip_space (rev (lstrip_space s))).

Definition digit_of (c : ascii) : option Z :=
  let n := nat_of_ascii c in
  if (48 <=? n)%nat && (n <=? 57)%nat then Some (Z.of_nat (n - 48)) else None.

Definition is_underscore (c : ascii) : bool := Ascii.eqb c "_"%char.

(** The digits of a base-10 literal after its first digit: further digits,
    each optionally preceded by one underscore. *)
Fixpoint int_digits (acc : Z) (s : string) : option Z :=
  match s with
  | EmptyString => Some acc
  | String c s' =>
      match digit_of c with
      | Some d => int_digits (10 * acc + d)%Z s'
      | None =>
          if is_underscore c then
            match s' with
            | String c' s'' =>
                match digit_of c' with
                | Some d => int_digits (10 * acc + d)%Z s''
                | None => None
                end
            | EmptyString => None
            end
          else None
      end
  end.

Definition int_unsigned (s : string) : option Z :=
  match s with
  | String c s' =>
      match digit_of c with
      | Some d => int_digits d s'
      | None => None
      end
  | EmptyString => None
  end.

(** The number of digits of a text (underscores and a sign are not
    counted). *)
Fixpoint count_digits (s : string) : Z :=
  match s with
  | EmptyString => 0
  | String c s' =>
      (match digit_of c with Some _ => 1 | None => 0 end + count_digits s')%Z
  end.

(** [sys.int_info.default_max_str_digits]: a decimal text of more digits is
    refused by [int]. *)
Definition max_str_digits : Z := 4300.

(** [int(s)] in base 10: surrounding white space is dropped, one sign is
    allowed, then digits; anything else, and a number of more than
    [max_str_digits] digits, raises [ValueError]. *)
Definition int (s : string) : result Z :=
  let body := strip_space s in
  let parsed :=
    match body with
    | String "+"%char s' => int_unsigned s'
    | String "-"%char s' => option_map Z.opp (int_unsigned s')
    | _ => int_unsigned body
    end in
  match parsed with
  | Some z => if (max_str_digits <? count_digits body)%Z then Raise ValueError else Ok z
  | None => Raise ValueError
  end.

(** [str(z)] / the [{z}] field of an f-string, for an integer. *)
Definition of_Z (z : Z) : string := NilEmpty.string_of_int (Z.to_int z).

End PyStr.

(** ** Regular expressions of the rule tables

    The patterns of the source are alternations of parenthesised literal
    texts, such as [(WHITE)|(PORTUGUESE)], or one literal ([M]).  [Lit s] is
    the regular expression matching exactly the text [s] (so the pattern
    [\?] is [Lit "?"]). *)

Inductive regex : Type :=
| Lit (s : string)
| Grp (r : regex)
| Alt (r1 r2 : regex).

(** [re.search(r, s) is not None]: some substring of [s] matches [r]. *)
Fixpoint re_search (r : regex) (s : string) : bool :=
  match r with
  | Lit p => PyStr.contains p s
  | Grp r' => re_search r' s
  | Alt r1 r2 => re_search r1 s || re_search r2 s
  end.

(** ** NumPy arrays of the remapping loop *)

(** An entry of [mapped_values]: the float NaN of the initial array, or a
    text once [np.where] has promoted the array to a string dtype. *)
Inductive cell : Type :=
| FloatNaN
| Str (s : string).

(** Conversion of an entry to the string dtype: NaN prints as [nan]. *)
Definition str_of_cell (c : cell) : string :=
  match c with
  | FloatNaN => "nan"
  | Str s => s
  end.

(** [np.empty(n) * np.nan] *)
Definition nan_array (n : nat) : list cell := repeat FloatNaN n.

(** [np.where(cond, x, y)] for a text scalar [x] and an array [y] as long as
    [cond]: the result has a string dtype, so the entries kept from [y] are
    converted. *)
Definition np_where (cond : list bool) (x : string) (y : list cell) : list cell :=
  map (fun ce : bool * cell => Str (if fst ce then x else str_of_cell (snd ce))) (combine cond y).

(** The loop shared by the categorical parsers,
      [for key, p in mapping.items(): mapped_values = np.where(mask(p), key, mapped_values)],
    where [mask p] is the boolean column of the rule [p]. *)
Definition remap_loop {P : Type} (mask : P -> list bool)
    (mapping : list (string * P)) (n : nat) : list cell :=
  fold_left (fun mapped_values kp => np_where (mask (snd kp)) (fst kp) mapped_values)
            mapping (nan_array n).

(** [pd.Series(a).replace(old, new)] on a column of texts. *)
Definition replace (old new : string) (a : list string) : list string :=
  map (fun s => if String.eqb s old then new else s) a.


(** ** Rule tables

    Each [mapping] of the source is a dict from label to pattern; [items()]
    yields its entries in the order they are written. *)

(** [parse_gender]: [{"Male": "M", "Female": "F"}] *)
Definition gender_mapping : list (string * regex) :=
  [ ("Male", Lit "M");
    ("Female", Lit "F") ].

(** [parse_race] *)
Definition race_mapping : list (string * regex) :=
  [ ("White", Alt (Grp (Lit "WHITE")) (Grp (Lit "PORTUGUESE")));
    ("Hispanic", Grp (Lit "HISPANIC"));
    ("Asian", Grp (Lit "ASIAN"));
    ("Black", Grp (Lit "BLACK"));
    ("Other",
      Alt (Grp (Lit "OTHER"))
     (Alt (Grp (Lit "SOUTH AMERICAN"))
     (Alt (Grp (Lit "CARIBBEAN ISLAND"))
     (Alt (Grp (Lit "NATIVE HAWAIIAN OR OTHER PACIFIC ISLANDER"))
          (Grp (Lit "AMERICAN INDIAN/ALASKA NATIVE FEDERALLY RECOGNIZED TRIBE")))))) ].

(** [parse_language]: [{"English": "(ENGLISH)", "Other": "(\?)"}] *)
Definition language_mapping : list (string * regex) :=
  [ ("English", Grp (Lit "ENGLISH"));
    ("Other", Grp (Lit "?")) ].

(** [parse_insurance] *)
Definition insurance_mapping : list (string * regex) :=
  [ ("Medicaid", Grp (Lit "Medicaid"));
    ("Medicare", Grp (Lit "Medicare"));
    ("Other", Grp (Lit "Other")) ].

(** [parse_careunit] *)
Definition careunit_mapping : list (string * regex) :=
  [ ("Medical-Surgical",
      Alt (Grp (Lit "Medical Intensive Care Unit"))
     (Alt (Grp (Lit "Medical/Surgical Intensive Care Unit"))
          (Grp (Lit "Surgical Intensive Care Unit"))));
    ("Cardiac",
      Alt (Grp (Lit "Cardiac Vascular Intensive Care Unit"))
          (Grp (Lit "Coronary Care Unit")));
    ("Neuro-Trauma",
      Alt (Grp (Lit "Neuro Intermediate"))
     (Alt (Grp (Lit "Neuro Stepdown"))
     (Alt (Grp (Lit "Neuro Surgical Intensive Care Unit"))
          (Grp (Lit "Trauma SICU"))))) ].

(** [parse_time]: label and the two arguments of [between]. *)
Definition time_mapping : list (string * (Z * Z)) :=
  [ ("00-06", (0, 6)%Z);
    ("06-12", (6, 12)%Z);
    ("12-18", (12, 18)%Z);
    ("18-24", (18, 24)%Z) ].

(** ** Parsers of text columns *)

Section TextParsers.

(** An entry of a text column is a text or missing ([None]).  For a missing
    entry [str.contains] leaves a missing marker in the mask, and the truth
    value [np.where] then reads from it belongs to pandas and NumPy, not to
    this module (on an object column a kept [None] reads false and a kept
    NaN reads true).  [na_mask] is that truth value, one for the missing
    entries of a column. *)
Variable na_mask : bool.

(** One entry of [values.str.contains(regexp)], as [np.where] reads it. *)
Definition contains_entry (regexp : regex) (v : option string) : bool :=
  match v with
  | Some s => re_search regexp s
  | None => na_mask
  end.

(** [values.str.contains(regexp)]: a regular-expression search, case
    sensitive ([case=True] is the default and no parser overrides it). *)
Definition str_contains (values : list (option string)) (regexp : regex) : list bool :=
  map (contains_entry regexp) values.

Definition parse_gender (values : list (option string)) : list string :=
  let mapped_values := remap_loop (str_contains values) gender_mapping (List.length values) in
  replace "nan" "Other" (map str_of_cell mapped_values).

Definition parse_race (values : list (option string)) : list string :=
  let mapped_values := remap_loop (str_contains values) race_mapping (List.length values) in
  replace "nan" "Unknown" (map str_of_cell mapped_values).

Definition parse_language (values : list (option string)) : list string :=
  let mapped_values := remap_loop (str_contains values) language_mapping (List.length values) in
  map str_of_cell mapped_values.

Definition parse_insurance (values : list (option string)) : list string :=
  let mapped_values := remap_loop (str_contains values) insurance_mapping (List.length values) in
  map str_of_cell mapped_values.

Definition parse_careunit (values : list (option string)) : list string :=
  let mapped_values := remap_loop (str_contains values) careunit_mapping (List.length values) in
  map str_of_cell mapped_values.

End TextParsers.

(** ** Timestamps and [parse_time] *)

Record Timestamp : Type := mkTimestamp {
  year : Z;
  month : Z;
  day : Z;
  hour : Z;
  minute : Z;
  second : Z
}.

(** The fields of a timestamp pandas can hold. *)
Definition valid_timestamp (t : Timestamp) : Prop :=
  (1 <= month t <= 12 /\ 1 <= day t <= 31 /\
   0 <= hour t <= 23 /\ 0 <= minute t <= 59 /\ 0 <= second t <= 59)%Z.

(** [values.dt.hour]; a missing timestamp ([NaT], here [None]) has no hour. *)
Definition dt_hour (values : list (option Timestamp)) : list (option Z) :=
  map (option_map hour) values.

(** One entry of [s.between(left, right)]: both ends are included
    ([inclusive="both"] is the default); a missing entry compares false. *)
Definition between_entry (left right : Z) (x : option Z) : bool :=
  match x with
  | Some h => ((left <=? h) && (h <=? right))%Z
  | None => false
  end.

Definition between (s : list (option Z)) (left right : Z) : list bool :=
  map (between_entry left right) s.

(** The column is taken as already converted by [pd.to_datetime]. *)
Definition parse_time (values : list (option Timestamp)) : list string :=
  let mapped_values :=
    remap_loop (fun item => between (dt_hour values) (fst item) (snd item))
               time_mapping (List.length values) in
  map str_of_cell mapped_values.

(** ** [parse_anchor_year] *)

Definition delta_anchors : list (Z * Z) :=
  [ (2008, 2011); (2011, 2014); (2014, 2017); (2017, 2020); (2020, 2023) ]%Z.

(** [delta in range(a, b)] for an integer [delta]. *)
Definition in_range (delta : Z) (da : Z * Z) : bool :=
  ((fst da <=? delta) && (delta <? snd da))%Z.

(** [f"{da[0]} - {da[1]}"] *)
Definition anchor_label (da : Z * Z) : string :=
  PyStr.of_Z (fst da) ++ " - " ++ PyStr.of_Z (snd da).

(** The local function [anchor_delta].  The variable [output] is unbound
    until some bucket assigns it ([None] here); [return output] on an unbound
    local raises [UnboundLocalError]. *)
Definition anchor_delta (delta : Z) : result string :=
  let output :=
    fold_left (fun output da => if in_range delta da then Some (anchor_label da) else output)
              delta_anchors None in
  match output with
  | Some label => Ok label
  | None => Raise UnboundLocalError
  end.

(** [lambda x: int(x.split("-")[0].strip("")) + 1] *)
Definition anchor_offset (x : string) : result Z :=
  n <- PyStr.int (PyStr.strip "" (fst (PyStr.split "-" x))) ;;
  Ok (n + 1)%Z.

(** A signed 64-bit integer as its value in [Z]: the result of an operation
    on [int64] columns wraps around. *)
Definition wrap64 (z : Z) : Z := ((z + 2 ^ 63) mod 2 ^ 64 - 2 ^ 63)%Z.

(** One entry of [anchor_year_group + (date.dt.year - anchor_year)] on
    [int64] columns (the offsets are taken to fit an [int64] column, as
    pandas stores them when they do). *)
Definition delta_entry (g : Z) (date : Timestamp) (anchor_year : Z) : Z :=
  wrap64 (g + wrap64 (year date - anchor_year)).

(** One row of [parse_anchor_year]: the three columns belong to one table and
    are combined entry by entry. *)
Definition parse_anchor_year_row (row : string * Timestamp * Z) : result string :=
  let '(anchor_year_group, date, anchor_year) := row in
  g <- anchor_offset anchor_year_group ;;
  anchor_delta (delta_entry g date anchor_year).

(** The three columns have one length. *)
Definition same_length (anchor_year_group : list string) (date : list Timestamp)
    (anchor_year : list Z) : bool :=
  (List.length date =? List.length anchor_year_group)%nat
  && (List.length anchor_year =? List.length anchor_year_group)%nat.

(** The source first maps [anchor_offset] over the whole first column, then
    [anchor_delta] over the whole [delta] column; the first exception of
    either pass aborts the call.  The entries of the columns are taken to be
    present and the columns to be indexed by position: on columns of
    different lengths the sum is aligned on the index and holds a NaN for
    every position that some column lacks, no bucket holds a NaN, and
    [anchor_delta] leaves [output] unbound there. *)
Definition parse_anchor_year (anchor_year_group : list string)
    (date : list Timestamp) (anchor_year : list Z) : result (list string) :=
  offsets <- apply_rows anchor_offset anchor_year_group ;;
  if same_length anchor_year_group date anchor_year then
    let delta :=
      map (fun r : Z * Timestamp * Z =>
             let '(g, d, a) := r in delta_entry g d a)
          (combine (combine offsets date) anchor_year) in
    apply_rows anchor_delta delta
  else Raise UnboundLocalError.

(** ** [parse_bmi] *)

(** A row of the frame passed to [parse_bmi].  A missing height is the float
    NaN, as [astype(float)] makes it; a missing race is [None]. *)
Record bmi_row : Type := mkRow {
  weight : float;
  height : float;
  race : option string
}.

Definition float_of_nat (n : nat) : float :=
  PrimFloat.of_uint63 (Uint63.of_Z (Z.of_nat n)).

(** One entry of [Series.fillna(value)]. *)
Definition fillna (value x : float) : float :=
  if PrimFloat.is_nan x then value else x.

(** [Series.mean()], which skips missing entries ([skipna=True]), as pandas
    computes it: the entries that are NaN are set to 0, the column is summed
    (here from left to right) and divided by the number of entries that were
    not NaN; the mean of no entry is NaN.  NumPy sums a column of fewer than
    8 entries in this order and a longer one pairwise, which can differ in
    the last bit; the statements below that depend on the value of a mean
    are made on [parse_bmi_with], which takes the mean as given. *)
Definition nanmean (xs : list float) : float :=
  let count := List.length (filter (fun x => negb (PrimFloat.is_nan x)) xs) in
  let the_sum := fold_left PrimFloat.add (map (fillna 0) xs) 0%float in
  if (0 <? count)%nat then (the_sum / float_of_nat count)%float else PrimFloat.nan.

(** [x ** -2] on floats, computed as the reciprocal of the square.  This
    rounds twice where the platform's power rounds once: the two agree at
    NaN, at zero and wherever the square is exact, and can differ in the last
    bit elsewhere; the statements below that depend on a rounded power are
    made on [parse_bmi_with], which takes the power as given. *)
Definition pow_neg2 (x : float) : float := (1 / (x * x))%float.

(** [temp.weight * ((temp.height.astype(float) / 100) ** -2)], one entry. *)
Definition bmi_of (w h : float) : float := (w * pow_neg2 (h / 100))%float.

(** The local function [__parse__], on the [bmi] and [race] entries of a row.
    [ethnicity.lower()] on a missing race raises [AttributeError]; an inner
    chain of [if]/[elif] that assigns nothing would leave [output] unbound. *)
Definition __parse__ (bmi : float) (race : option string) : result string :=
  if (bmi <? 16.5)%float then
    Ok "Severly Underweight"
  else if ((16.5 <=? bmi) && (bmi <? 18.5))%float then
    Ok "Underweight"
  else if (18.5 <=? bmi)%float then
    match race with
    | None => Raise AttributeError
    | Some ethnicity =>
        if PyStr.contains "asian" (PyStr.lower ethnicity) then
          if ((18.5 <=? bmi) && (bmi <? 23.0))%float then Ok "Normal"
          else if ((23.0 <=? bmi) && (bmi <? 25.0))%float then Ok "Overweight"
          else if (25.0 <=? bmi)%float then Ok "Obesity"
          else Raise UnboundLocalError
        else
          if ((18.5 <=? bmi) && (bmi <? 25.0))%float then Ok "Normal"
          else if ((25.0 <=? bmi) && (bmi <? 30.0))%float then Ok "Overweight"
          else if (30.0 <=? bmi)%float then Ok "Obesity"
          else Raise UnboundLocalError
    end
  else
    Ok "Unknown or Unavailable".

(** The height column after the optional imputation step
    [temp.height = temp.height.fillna(temp.height.astype(float).mean())]. *)
Definition imputed_heights (values : list bmi_row) (impute_heights : bool) : list float :=
  let heights := map height values in
  if impute_heights then map (fillna (nanmean heights)) heights else heights.

Definition parse_bmi (values : list bmi_row) (impute_heights : bool) : result (list string) :=
  let heights := imputed_heights values impute_heights in
  let temp := map (fun rh : bmi_row * float => (bmi_of (weight (fst rh)) (snd rh), race (fst rh)))
                  (combine values heights) in
  apply_rows (fun br : float * option string => __parse__ (fst br) (snd br)) temp.

(** ** Reading the loop one row at a time *)

(** What the remapping loop leaves in the entry of one value [v]: every rule
    that hits overwrites the entry, every other rule keeps (and converts) it.
    [remap_loop_rows] below shows that the array-wide loop computes exactly
    this on each row. *)
Definition entry_step {P V : Type} (hit : P -> V -> bool) (v : V)
    (c : cell) (kp : string * P) : cell :=
  Str (if hit (snd kp) v then fst kp else str_of_cell c).

Definition remap_entry {P V : Type} (hit : P -> V -> bool)
    (mapping : list (string * P)) (v : V) : cell :=
  fold_left (entry_step hit v) mapping FloatNaN.

(** The hit test of [parse_time] on one entry of the column. *)
Definition hour_between (item : Z * Z) (v : option Timestamp) : bool :=
  between_entry (fst item) (snd item) (option_map hour v).

(** The priority property, in both directions.  [parser] remaps a column with
    the rules [mapping]; [hit p v] says that rule [p] matches the value [v].
    Rules [i < j] both match [v].

    [first_match_wins]: the row of [v] gets the label of rule [i]. *)
Definition first_match_wins {P V : Type} (hit : P -> V -> bool)
    (mapping : list (string * P)) (parser : list V -> list string) : Prop :=
  forall (values : list V) (n : nat) (v : V) (i j : nat) (ki kj : string) (pi pj : P),
    nth_error values n = Some v ->
    nth_error mapping i = Some (ki, pi) ->
    nth_error mapping j = Some (kj, pj) ->
    (i < j)%nat ->
    hit pi v = true ->
    hit pj v = true ->
    nth_error (parser values) n = Some ki.

(** [last_match_wins]: when no rule after [j] matches, the row of [v] gets
    the label of rule [j]. *)
Definition last_match_wins {P V : Type} (hit : P -> V -> bool)
    (mapping : list (string * P)) (parser : list V -> list string) : Prop :=
  forall (values : list V) (n : nat) (v : V) (i j : nat) (ki kj : string) (pi pj : P),
    nth_error values n = Some v ->
    nth_error mapping i = Some (ki, pi) ->
    nth_error mapping j = Some (kj, pj) ->
    (i < j)%nat ->
    hit pi v = true ->
    hit pj v = true ->
    (forall (m : nat) (km : string) (pm : P),
        (j < m)%nat -> nth_error mapping m = Some (km, pm) -> hit pm v = false) ->
    nth_error (parser values) n = Some kj.

(** The text the loop leaves for one entry of a text column, and of a
    timestamp column. *)
Definition text_entry (na_mask : bool) (mapping : list (string * regex))
    (v : option string) : string :=
  str_of_cell (remap_entry (contains_entry na_mask) mapping v).

Definition time_entry (v : option Timestamp) : string :=
  str_of_cell (remap_entry hour_between time_mapping v).

(** No rule of [mapping] matches the entry [v]. *)
Definition unmatched (na_mask : bool) (mapping : list (string * regex))
    (v : option string) : Prop :=
  Forall (fun kp => contains_entry na_mask (snd kp) v = false) mapping.

(** One entry of [replace old new]. *)
Definition replace_entry (old new s : string) : string :=
  if String.eqb s old then new else s.

(** ** Letter case *)

Fixpoint has_upper (s : string) : bool :=
  match s with
  | EmptyString => false
  | String c s' => PyStr.is_upper c || has_upper s'
  end.

(** Every alternative of the pattern holds an upper-case letter. *)
Fixpoint needs_upper (r : regex) : bool :=
  match r with
  | Lit p => has_upper p
  | Grp r' => needs_upper r'
  | Alt r1 r2 => needs_upper r1 && needs_upper r2
  end.

(** The height [parse_bmi] uses for a row, given the mean of the batch. *)
Definition height_used (impute_heights : bool) (mean h : float) : float :=
  if impute_heights then fillna mean h else h.

(** ** [parse_admission_location] *)

Definition is_lower (c : ascii) : bool :=
  let n := nat_of_ascii c in (97 <=? n)%nat && (n <=? 122)%nat.

(** A cased character: over ASCII, a letter. *)
Definition is_cased (c : ascii) : bool := PyStr.is_upper c || is_lower c.

(** [str.upper] on one ASCII character, which is also its title case. *)
Definition upper_char (c : ascii) : ascii :=
  if is_lower c then ascii_of_nat (nat_of_ascii c - 32) else c.

(** The loop of [s.title()]: a character that follows a cased character is
    lowered, any other is put in title case. *)
Fixpoint title_from (previous_is_cased : bool) (s : string) : string :=
  match s with
  | EmptyString => EmptyString
  | String c s' =>
      String (if previous_is_cased then PyStr.lower_char c else upper_char c)
             (title_from (is_cased c) s')
  end.

(** [s.title()] *)
Definition title (s : string) : string := title_from false s.

(** [values.str.title()]: a missing entry stays missing. *)
Definition str_title (values : list (option string)) : list (option string) :=
  map (option_map title) values.

(** The list given to [isin]. *)
Definition admission_locations : list string :=
  [ "Emergency Room"; "Physician Referral"; "Transfer From Hospital" ].

(** One entry of [temp.isin(xs)]; a missing entry is in no list of texts. *)
Definition isin_entry (xs : list string) (v : option string) : bool :=
  match v with
  | Some s => existsb (String.eqb s) xs
  | None => false
  end.

Definition isin (temp : list (option string)) (xs : list string) : list bool :=
  map (isin_entry xs) temp.

(** An entry of an object column seen as an entry of an object array: a
    missing entry is the float NaN. *)
Definition cell_of_entry (v : option string) : cell :=
  match v with
  | Some s => Str s
  | None => FloatNaN
  end.

(** [np.where(cond, x, y)] for an object column [x] as long as [cond] and a
    text scalar [y]: the result is an object array, nothing is converted. *)
Definition np_where_column (cond : list bool) (x : list (option string)) (y : string)
    : list cell :=
  map (fun cx : bool * option string => if fst cx then cell_of_entry (snd cx) else Str y)
      (combine cond x).

Definition parse_admission_location (values : list (option string)) : list cell :=
  let temp := str_title values in
  np_where_column (isin temp admission_locations) temp "Other".

(** The label of one entry of [parse_admission_location], read off its
    lower-cased text. *)
Definition admission_label (v : option string) : string :=
  match v with
  | Some s =>
      if String.eqb (PyStr.lower s) "emergency room" then "Emergency Room"
      else if String.eqb (PyStr.lower s) "physician referral" then "Physician Referral"
      else if String.eqb (PyStr.lower s) "transfer from hospital" then "Transfer From Hospital"
      else "Other"
  | None => "Other"
  end.

(** ** Reading a rule table as a decision list *)

(** The texts a pattern accepts as substrings. *)
Fixpoint alternatives (r : regex) : list string :=
  match r with
  | Lit p => [p]
  | Grp r' => alternatives r'
  | Alt r1 r2 => alternatives r1 ++ alternatives r2
  end.

(** The table scanned from its last rule to its first: the label of the first
    rule met that matches [v], [default] when none does. *)
Definition scan_reversed {P V : Type} (hit : P -> V -> bool)
    (mapping : list (string * P)) (default : string) (v : V) : string :=
  match find (fun kp => hit (snd kp) v) (rev mapping) with
  | Some kp => fst kp
  | None => default
  end.

(** The rows of the three columns of [parse_anchor_year], for columns of one
    length. *)
Definition anchor_rows (anchor_year_group : list string) (date : list Timestamp)
    (anchor_year : list Z) : list (string * Timestamp * Z) :=
  combine (combine anchor_year_group date) anchor_year.

(** ** Texts of digits and of white space *)

Definition is_digit (c : ascii) : bool :=
  match PyStr.digit_of c with
  | Some _ => true
  | None => false
  end.

(** Every character of [s] satisfies [f]. *)
Fixpoint forall_chars (f : ascii -> bool) (s : string) : bool :=
  match s with
  | EmptyString => true
  | String c s' => f c && forall_chars f s'
  end.

(** The BMI of a row of a batch, as [parse_bmi] computes it. *)
Definition row_bmi (impute_heights : bool) (values : list bmi_row) (r : bmi_row) : float :=
  bmi_of (weight r) (height_used impute_heights (nanmean (map height values)) (height r)).

(** ** [parse_bmi] over the numeric routines of pandas and NumPy

    Two numeric routines that [parse_bmi] calls are not part of the module:
    [Series.mean()], whose order of summation is NumPy's, and the power
    [x ** -2], which NumPy takes from the platform.  Division by 100 and
    multiplication are the binary64 operations.  [parse_bmi_with] is
    [parse_bmi] with the two routines taken as given; [nanmean] and
    [pow_neg2] above are one choice of them. *)

Section BmiLibrary.

(** [temp.height.astype(float).mean()], as a function of the height column. *)
Variable series_mean : list float -> float.

(** [x ** -2] on one float. *)
Variable power_neg2 : float -> float.

(** [temp.weight * ((temp.height.astype(float) / 100) ** -2)], one entry. *)
Definition bmi_with (w h : float) : float := (w * power_neg2 (h / 100))%float.

Definition imputed_heights_with (values : list bmi_row) (impute_heights : bool)
    : list float :=
  let heights := map height values in
  if impute_heights then map (fillna (series_mean heights)) heights else heights.

Definition parse_bmi_with (values : list bmi_row) (impute_heights : bool)
    : result (list string) :=
  let heights := imputed_heights_with values impute_heights in
  let temp := map (fun rh : bmi_row * float => (bmi_with (weight (fst rh)) (snd rh), race (fst rh)))
                  (combine values heights) in
  apply_rows (fun br : float * option string => __parse__ (fst br) (snd br)) temp.

(** The BMI of a row of a batch, as [parse_bmi_with] computes it. *)
Definition row_bmi_with (impute_heights : bool) (values : list bmi_row) (r : bmi_row)
    : float :=
  bmi_with (weight r)
           (height_used impute_heights (series_mean (map height values)) (height r)).

End BmiLibrary.

(** ** Proof automation *)

(** Decides a closed statement about one character by trying all 256. *)
Ltac each_ascii c :=
  let b0 := fresh "b" in let b1 := fresh "b" in let b2 := fresh "b" in
  let b3 := fresh "b" in let b4 := fresh "b" in let b5 := fresh "b" in
  let b6 := fresh "b" in let b7 := fresh "b" in
  destruct c as [b0 b1 b2 b3 b4 b5 b6 b7];
  destruct b0, b1, b2, b3, b4, b5, b6, b7; reflexivity.

(** Splits the comparisons of integers and of mantissas in the goal. *)
Ltac split_compare :=
  repeat match goal with
    | |- context [(?a ?= ?b)%Z] => destruct (Z.compare_spec a b)
    | |- context [Pos.compare_cont Eq ?a ?b] =>
        change (Pos.compare_cont Eq a b) with (Pos.compare a b);
        destruct (Pos.compare_spec a b)
    end.

(** The labels [__parse__] can assign. *)
Definition bmi_labels : list string :=
  [ "Severly Underweight"; "Underweight"; "Normal"; "Overweight"; "Obesity";
    "Unknown or Unavailable" ].

(** Closes [forall k, In k labels -> post k = k] for a concrete list of
    labels by trying each. *)
Ltac labels_unchanged :=
  let k := fresh "k" in
  let Hk := fresh "Hk" in
  intros k Hk; simpl in Hk;
  repeat (destruct Hk as [Hk|Hk]; [subst k; reflexivity|]);
  contradiction.

(** ** Sanity checks of the embedding on concrete inputs *)

Example split_anchor_group :
  PyStr.split "-" "2017 - 2019" = ("2017 ", [" 2019"]).
Proof. reflexivity. Qed.

Example strip_empty_chars : PyStr.strip "" "2017 " = "2017 ".
Proof. reflexivity. Qed.

Example strip_chars : PyStr.strip "xy" "xyaxbyx" = "axb".
Proof. reflexivity. Qed.

Example int_examples :
  PyStr.int "2017 " = Ok 2017%Z /\ PyStr.int " -12" = Ok (-12)%Z /\
  PyStr.int "1_000" = Ok 1000%Z /\ PyStr.int "20 17" = Raise ValueError /\
  PyStr.int "" = Raise ValueError /\ PyStr.int "1__0" = Raise ValueError.
Proof. repeat split; reflexivity. Qed.

Example anchor_label_example : anchor_label (2008, 2011)%Z = "2008 - 2011".
Proof. reflexivity. Qed.

Example race_scenario :
  parse_race false [Some "WHITE"; Some "HISPANIC/LATINO"; Some "ASIAN - CHINESE"; Some "MARTIAN"]
  = ["White"; "Hispanic"; "Asian"; "Unknown"].
Proof. reflexivity. Qed.

Example nanmean_example :
  nanmean [PrimFloat.nan; 100%float; 200%float] = 150%float.
Proof. reflexivity. Qed.

Example bmi_example : bmi_of 70 200 = 17.5%float.
Proof. reflexivity. Qed.

Example nanmean_of_nothing : PrimFloat.is_nan (nanmean [PrimFloat.nan]) = true.
Proof. reflexivity. Qed.

(** A BMI that is NaN fails every comparison and reaches the last [else]. *)
Example bmi_unknown :
  __parse__ PrimFloat.nan None = Ok "Unknown or Unavailable" /\
  parse_bmi [mkRow 70 PrimFloat.nan (Some "WHITE")] false = Ok ["Unknown or Unavailable"] /\
  parse_bmi [mkRow 70 PrimFloat.nan (Some "WHITE")] true = Ok ["Unknown or Unavailable"].
Proof. repeat apply conj; reflexivity. Qed.

(** ** The remapping loop, row by row *)

Section RemapLoop.

Context {P V : Type}.
Variable hit : P -> V -> bool.

Lemma np_where_rows (values : list V) (p : P) (key : string) (g : V -> cell) :
  np_where (map (hit p) values) key (map g values)
  = map (fun v => entry_step hit v (g v) (key, p)) values.
Proof.
  unfold np_where, entry_step.
  induction values as [|v values IH]; simpl.
  - reflexivity.
  - f_equal. exact IH.
Qed.

Lemma fold_np_where_rows (mask : P -> list bool) (values : list V) :
  (forall p, mask p = map (hit p) values) ->
  forall (mapping : list (string * P)) (g : V -> cell),
    fold_left (fun mapped_values kp => np_where (mask (snd kp)) (fst kp) mapped_values)
              mapping (map g values)
    = map (fun v => fold_left (entry_step hit v) mapping (g v)) values.
Proof.
  intros Hmask mapping.
  induction mapping as [|[key p] mapping IH]; intros g; simpl.
  - reflexivity.
  - rewrite Hmask, np_where_rows.
    apply (IH (fun v => entry_step hit v (g v) (key, p))).
Qed.

Lemma nan_array_rows (values : list V) :
  nan_array (List.length values) = map (fun _ => FloatNaN) values.
Proof.
  unfold nan_array.
  induction values as [|v values IH]; simpl; [reflexivity | now rewrite IH].
Qed.

(** The array-wide loop computes [remap_entry] on every row. *)
Lemma remap_loop_rows (mask : P -> list bool) (mapping : list (string * P))
    (values : list V) :
  (forall p, mask p = map (hit p) values) ->
  remap_loop mask mapping (List.length values) = map (remap_entry hit mapping) values.
Proof.
  intros Hmask. unfold remap_loop.
  rewrite nan_array_rows.
  apply (fold_np_where_rows mask values Hmask mapping (fun _ => FloatNaN)).
Qed.

(** Rules that miss [v] only convert the entry. *)
Lemma fold_step_all_miss (v : V) (post : list (string * P)) :
  forall c : cell,
    Forall (fun kp => hit (snd kp) v = false) post ->
    str_of_cell (fold_left (entry_step hit v) post c) = str_of_cell c.
Proof.
  induction post as [|kp post IH]; intros c Hmiss; simpl.
  - reflexivity.
  - inversion Hmiss as [|? ? Hkp Hpost]; subst.
    rewrite (IH _ Hpost). unfold entry_step. rewrite Hkp. reflexivity.
Qed.

(** A rule that hits, followed only by rules that miss, decides the entry. *)
Lemma fold_step_last_hit (v : V) (pre post : list (string * P)) (key : string) (p : P) :
  forall c : cell,
    hit p v = true ->
    Forall (fun kp => hit (snd kp) v = false) post ->
    str_of_cell (fold_left (entry_step hit v) (pre ++ (key, p) :: post) c) = key.
Proof.
  intros c Hhit Hmiss.
  rewrite fold_left_app. simpl.
  rewrite (fold_step_all_miss v post _ Hmiss).
  unfold entry_step. simpl. rewrite Hhit. reflexivity.
Qed.

Lemma remap_entry_last_hit (mapping : list (string * P)) (v : V)
    (j : nat) (kj : string) (pj : P) :
  nth_error mapping j = Some (kj, pj) ->
  hit pj v = true ->
  (forall (m : nat) (km : string) (pm : P),
      (j < m)%nat -> nth_error mapping m = Some (km, pm) -> hit pm v = false) ->
  str_of_cell (remap_entry hit mapping v) = kj.
Proof.
  intros Hj Hhit Hlater.
  destruct (nth_error_split mapping j Hj) as (pre & post & Hmap & Hlen).
  unfold remap_entry. rewrite Hmap.
  apply fold_step_last_hit; [exact Hhit|].
  apply Forall_forall. intros [km pm] Hin.
  destruct (In_nth_error post (km, pm) Hin) as [m Hm].
  apply (Hlater (S (j + m)) km pm); [lia|].
  rewrite Hmap, <- Hlen.
  rewrite nth_error_app2 by lia.
  replace (S (List.length pre + m) - List.length pre)%nat with (S m) by lia.
  exact Hm.
Qed.

(** A value no rule hits keeps the NaN of the initial array, which the string
    dtype shows as [nan]. *)
Lemma remap_entry_no_hit (mapping : list (string * P)) (v : V) :
  Forall (fun kp => hit (snd kp) v = false) mapping ->
  str_of_cell (remap_entry hit mapping v) = "nan".
Proof.
  intros Hmiss. unfold remap_entry.
  rewrite (fold_step_all_miss v mapping FloatNaN Hmiss). reflexivity.
Qed.

Lemma fold_step_closed (v : V) (labels : list string) (mapping : list (string * P)) :
  incl (map fst mapping) labels ->
  forall c : cell,
    In (str_of_cell c) labels ->
    In (str_of_cell (fold_left (entry_step hit v) mapping c)) labels.
Proof.
  induction mapping as [|[key p] mapping IH]; intros Hincl c Hc; simpl.
  - exact Hc.
  - apply IH.
    + intros k Hk. apply Hincl. now right.
    + unfold entry_step; simpl. destruct (hit p v); [|exact Hc].
      apply Hincl. now left.
Qed.

(** The entry is [nan] or one of the labels of the table. *)
Lemma remap_entry_closed (mapping : list (string * P)) (v : V) :
  In (str_of_cell (remap_entry hit mapping v)) ("nan" :: map fst mapping).
Proof.
  unfold remap_entry. apply fold_step_closed.
  - intros k Hk. now right.
  - now left.
Qed.

End RemapLoop.

(** ** The parsers, row by row *)

Lemma text_loop_rows (na : bool) (mapping : list (string * regex))
    (values : list (option string)) :
  map str_of_cell (remap_loop (str_contains na values) mapping (List.length values))
  = map (text_entry na mapping) values.
Proof.
  rewrite (remap_loop_rows (contains_entry na)) by reflexivity.
  rewrite map_map. reflexivity.
Qed.

Lemma replace_rows {V : Type} (old new : string) (f : V -> string) (values : list V) :
  replace old new (map f values) = map (fun v => replace_entry old new (f v)) values.
Proof. unfold replace. rewrite map_map. reflexivity. Qed.

Lemma parse_gender_rows (na : bool) (values : list (option string)) :
  parse_gender na values
  = map (fun v => replace_entry "nan" "Other" (text_entry na gender_mapping v)) values.
Proof. unfold parse_gender. rewrite text_loop_rows. apply replace_rows. Qed.

Lemma parse_race_rows (na : bool) (values : list (option string)) :
  parse_race na values
  = map (fun v => replace_entry "nan" "Unknown" (text_entry na race_mapping v)) values.
Proof. unfold parse_race. rewrite text_loop_rows. apply replace_rows. Qed.

Lemma parse_language_rows (na : bool) (values : list (option string)) :
  parse_language na values = map (text_entry na language_mapping) values.
Proof. apply text_loop_rows. Qed.

Lemma parse_insurance_rows (na : bool) (values : list (option string)) :
  parse_insurance na values = map (text_entry na insurance_mapping) values.
Proof. apply text_loop_rows. Qed.

Lemma parse_careunit_rows (na : bool) (values : list (option string)) :
  parse_careunit na values = map (text_entry na careunit_mapping) values.
Proof. apply text_loop_rows. Qed.

Lemma parse_time_rows (values : list (option Timestamp)) :
  parse_time values = map time_entry values.
Proof.
  unfold parse_time.
  rewrite (remap_loop_rows hour_between).
  - rewrite map_map. reflexivity.
  - intros item. unfold between, dt_hour. rewrite map_map. reflexivity.
Qed.

(** Every parser returns one label per input row, in the same order. *)
Lemma parsers_keep_length (na : bool) (values : list (option string)) :
  List.length (parse_gender na values) = List.length values /\
  List.length (parse_race na values) = List.length values /\
  List.length (parse_language na values) = List.length values /\
  List.length (parse_insurance na values) = List.length values /\
  List.length (parse_careunit na values) = List.length values.
Proof.
  rewrite parse_gender_rows, parse_race_rows, parse_language_rows,
    parse_insurance_rows, parse_careunit_rows.
  rewrite !length_map. repeat split; reflexivity.
Qed.

(** ** Priority among matching rules *)

(** A parser that post-processes [remap_entry] row by row, without touching
    the labels of its table, gives every row the label of its last matching
    rule. *)
Lemma last_match_wins_rows {P V : Type} (hit : P -> V -> bool)
    (mapping : list (string * P)) (parser : list V -> list string)
    (post : string -> string) :
  (forall values,
      parser values = map (fun v => post (str_of_cell (remap_entry hit mapping v))) values) ->
  (forall k, In k (map fst mapping) -> post k = k) ->
  last_match_wins hit mapping parser.
Proof.
  intros Hrows Hpost values n v i j ki kj pi pj Hv _ Hj _ _ Hhit Hlater.
  rewrite Hrows, nth_error_map, Hv. simpl.
  rewrite (remap_entry_last_hit hit mapping v j kj pj Hj Hhit Hlater).
  f_equal. apply Hpost.
  apply nth_error_In in Hj. apply (in_map fst) in Hj. exact Hj.
Qed.

(** C1 (as amended): in every categorical parser the LAST matching rule wins.
    When a value matches rule [i] and a later rule [j], and no rule after [j],
    its row receives the label of rule [j]; this holds for the race, gender,
    language, insurance, care-unit and time-of-day parsers. *)
Theorem last_matching_rule_wins (na : bool) :
  last_match_wins (contains_entry na) race_mapping (parse_race na) /\
  last_match_wins (contains_entry na) gender_mapping (parse_gender na) /\
  last_match_wins (contains_entry na) language_mapping (parse_language na) /\
  last_match_wins (contains_entry na) insurance_mapping (parse_insurance na) /\
  last_match_wins (contains_entry na) careunit_mapping (parse_careunit na) /\
  last_match_wins hour_between time_mapping parse_time.
Proof.
  repeat split.
  - apply (last_match_wins_rows _ _ _ (replace_entry "nan" "Unknown"));
      [apply parse_race_rows | labels_unchanged].
  - apply (last_match_wins_rows _ _ _ (replace_entry "nan" "Other"));
      [apply parse_gender_rows | labels_unchanged].
  - apply (last_match_wins_rows _ _ _ (fun s => s));
      [apply parse_language_rows | reflexivity].
  - apply (last_match_wins_rows _ _ _ (fun s => s));
      [apply parse_insurance_rows | reflexivity].
  - apply (last_match_wins_rows _ _ _ (fun s => s));
      [apply parse_careunit_rows | reflexivity].
  - apply (last_match_wins_rows _ _ _ (fun s => s));
      [apply parse_time_rows | reflexivity].
Qed.

(** The race value "WHITE - OTHER EUROPEAN" matches the rules of "White"
    (index 0) and of "Other" (index 4, the last one): it is labelled
    "Other". *)
Lemma last_matching_rule_wins_witness :
  nth_error (parse_race false [Some "WHITE - OTHER EUROPEAN"]) 0 = Some "Other".
Proof.
  refine (proj1 (last_matching_rule_wins false)
            [Some "WHITE - OTHER EUROPEAN"] 0%nat (Some "WHITE - OTHER EUROPEAN")
            0%nat 4%nat "White" "Other" _ _
            eq_refl eq_refl eq_refl _ eq_refl eq_refl _).
  - repeat constructor.
  - intros m km pm Hm Hnth.
    do 5 (destruct m as [|m]; [inversion Hm|]; apply le_S_n in Hm).
    destruct m; discriminate Hnth.
Defined.

(** C1, as stated, fails: the first matching rule does not win.  The race
    value "WHITE - OTHER EUROPEAN" matches the first rule ("White") and the
    last ("Other") and is labelled "Other"; the hour 6 matches "00-06" and
    "06-12" and is labelled "06-12". *)
Lemma first_matching_rule_loses :
  (forall na, parse_race na [Some "WHITE - OTHER EUROPEAN"] = ["Other"]) /\
  parse_time [Some (mkTimestamp 2150 3 14 6 30 0)] = ["06-12"] /\
  (forall na, ~ first_match_wins (contains_entry na) race_mapping (parse_race na)) /\
  ~ first_match_wins hour_between time_mapping parse_time.
Proof.
  split; [intros na; reflexivity|].
  split; [reflexivity|].
  split.
  - intros na Hfirst.
    specialize (Hfirst [Some "WHITE - OTHER EUROPEAN"] 0%nat (Some "WHITE - OTHER EUROPEAN")
                  0%nat 4%nat "White" "Other" _ _
                  eq_refl eq_refl eq_refl ltac:(repeat constructor) eq_refl eq_refl).
    discriminate Hfirst.
  - intros Hfirst.
    specialize (Hfirst [Some (mkTimestamp 2150 3 14 6 30 0)] 0%nat
                  (Some (mkTimestamp 2150 3 14 6 30 0))
                  0%nat 1%nat "00-06" "06-12" _ _
                  eq_refl eq_refl eq_refl ltac:(repeat constructor) eq_refl eq_refl).
    discriminate Hfirst.
Qed.

(** ** Values that match no rule *)

Lemma text_entry_no_hit (na : bool) (mapping : list (string * regex)) (v : option string) :
  unmatched na mapping v -> text_entry na mapping v = "nan".
Proof. apply remap_entry_no_hit. Qed.

(** Only [parse_gender] and [parse_race] end with a [replace] of the text
    [nan]: an unmatched value gets their default label.  The three other text
    parsers return the array as the loop left it. *)
Lemma unmatched_rows (na : bool) (values : list (option string)) (n : nat)
    (v : option string) :
  nth_error values n = Some v ->
  (unmatched na gender_mapping v -> nth_error (parse_gender na values) n = Some "Other") /\
  (unmatched na race_mapping v -> nth_error (parse_race na values) n = Some "Unknown") /\
  (unmatched na language_mapping v -> nth_error (parse_language na values) n = Some "nan") /\
  (unmatched na insurance_mapping v -> nth_error (parse_insurance na values) n = Some "nan") /\
  (unmatched na careunit_mapping v -> nth_error (parse_careunit na values) n = Some "nan").
Proof.
  intros Hv.
  rewrite parse_gender_rows, parse_race_rows, parse_language_rows,
    parse_insurance_rows, parse_careunit_rows.
  rewrite !nth_error_map, Hv. simpl option_map.
  repeat split; intros Hmiss; rewrite (text_entry_no_hit _ _ _ Hmiss); reflexivity.
Qed.

(** A missing entry is labelled by the way its mask entry reads: when it
    reads true every rule overwrites it and the last label stays, when it
    reads false it is treated as unmatched. *)
Lemma missing_entries (na : bool) :
  parse_gender na [None] = [if na then "Female" else "Other"] /\
  parse_race na [None] = [if na then "Other" else "Unknown"] /\
  parse_language na [None] = [if na then "Other" else "nan"] /\
  parse_insurance na [None] = [if na then "Other" else "nan"] /\
  parse_careunit na [None] = [if na then "Neuro-Trauma" else "nan"] /\
  parse_time [None] = ["nan"].
Proof. destruct na; repeat split; reflexivity. Qed.

(** C2: the code at inputs that match no rule.  [parse_language],
    [parse_insurance] and [parse_careunit] return the text [nan] for them, not
    a default label; [parse_gender] and [parse_race] return their defaults
    "Other" and "Unknown". *)
Theorem unmatched_values_show_nan (na : bool) :
  parse_language na [Some "Spanish"] = ["nan"] /\
  parse_insurance na [Some "Private"] = ["nan"] /\
  parse_careunit na [Some "Medicine"] = ["nan"] /\
  parse_gender na [Some "unknown"] = ["Other"] /\
  parse_race na [Some "MARTIAN"] = ["Unknown"].
Proof. repeat split; reflexivity. Qed.

(** ** The gender scenario *)

(** C4 (as amended): on ["MALE"; "Female"; "unknown"] the gender parser
    returns ["Male"; "Female"; "Other"]: the labels are the keys of the
    mapping, "M" and "F" are its patterns. *)
Theorem gender_scenario (na : bool) :
  parse_gender na [Some "MALE"; Some "Female"; Some "unknown"]
  = ["Male"; "Female"; "Other"].
Proof. reflexivity. Qed.

(** C4, as stated, fails: the output is not ["M"; "F"; "Other"]. *)
Lemma gender_scenario_not_M_F :
  ~ exists na : bool,
      parse_gender na [Some "MALE"; Some "Female"; Some "unknown"] = ["M"; "F"; "Other"].
Proof. intros [na H]. discriminate H. Qed.

(** ** Letter case *)

Lemma lower_char_not_upper (c : ascii) : PyStr.is_upper (PyStr.lower_char c) = false.
Proof.
  destruct c as [b0 b1 b2 b3 b4 b5 b6 b7].
  destruct b0, b1, b2, b3, b4, b5, b6, b7; reflexivity.
Qed.

Lemma lower_has_no_upper (s : string) : has_upper (PyStr.lower s) = false.
Proof.
  induction s as [|c s IH]; simpl.
  - reflexivity.
  - now rewrite lower_char_not_upper, IH.
Qed.

Lemma startswith_has_upper (p : string) :
  forall s : string,
    PyStr.startswith p s = true -> has_upper p = true -> has_upper s = true.
Proof.
  induction p as [|a p IH]; intros s Hpre Hup; simpl in *.
  - discriminate Hup.
  - destruct s as [|b s]; [discriminate Hpre|].
    apply andb_true_iff in Hpre. destruct Hpre as [Hab Hpre].
    apply Ascii.eqb_eq in Hab. subst b. simpl.
    apply orb_true_iff in Hup. apply orb_true_iff.
    destruct Hup as [Hup|Hup]; [now left | right; now apply IH].
Qed.

Lemma contains_has_upper (p s : string) :
  PyStr.contains p s = true -> has_upper p = true -> has_upper s = true.
Proof.
  induction s as [|b s IH]; intros Hin Hup.
  - simpl in Hin. exact (startswith_has_upper p EmptyString Hin Hup).
  - change (PyStr.contains p (String b s))
      with (PyStr.startswith p (String b s) || PyStr.contains p s) in Hin.
    apply orb_true_iff in Hin. destruct Hin as [Hin|Hin].
    + exact (startswith_has_upper p _ Hin Hup).
    + simpl. rewrite (IH Hin Hup). apply orb_true_r.
Qed.

(** A pattern whose alternatives all hold an upper-case letter finds nothing
    in a text without one: the search is case sensitive. *)
Lemma re_search_needs_upper (r : regex) (s : string) :
  needs_upper r = true -> has_upper s = false -> re_search r s = false.
Proof.
  intros Hr Hs. induction r as [p|r IH|r1 IH1 r2 IH2]; simpl in *.
  - destruct (PyStr.contains p s) eqn:Hin; [|reflexivity].
    rewrite (contains_has_upper p s Hin Hr) in Hs. discriminate Hs.
  - now apply IH.
  - apply andb_true_iff in Hr. destruct Hr as [H1 H2].
    now rewrite IH1, IH2.
Qed.

Lemma lower_text_no_hit (na : bool) (mapping : list (string * regex)) (s : string) :
  forallb (fun kp => needs_upper (snd kp)) mapping = true ->
  unmatched na mapping (Some (PyStr.lower s)).
Proof.
  intros Hall. apply Forall_forall. intros kp Hin.
  assert (Hkp : needs_upper (snd kp) = true).
  { rewrite forallb_forall in Hall. now apply Hall. }
  simpl. apply re_search_needs_upper; [exact Hkp | apply lower_has_no_upper].
Qed.

(** C5 (as amended): matching is case sensitive.  The patterns of
    [parse_race] and [parse_careunit] all hold upper-case letters, so a value
    written in lower case matches none of them: its row gets the default
    "Unknown" of [parse_race] and the text [nan] of [parse_careunit],
    whatever label the value had before its letters were lowered. *)
Theorem lower_case_values_unmatched (na : bool) (values : list (option string))
    (n : nat) (s : string) :
  nth_error values n = Some (Some (PyStr.lower s)) ->
  nth_error (parse_race na values) n = Some "Unknown" /\
  nth_error (parse_careunit na values) n = Some "nan".
Proof.
  intros Hv.
  destruct (unmatched_rows na values n _ Hv) as (_ & Hrace & _ & _ & Hcareunit).
  split.
  - apply Hrace. apply lower_text_no_hit. reflexivity.
  - apply Hcareunit. apply lower_text_no_hit. reflexivity.
Qed.

Lemma lower_case_values_unmatched_witness :
  nth_error (parse_race false [Some "white"]) 0 = Some "Unknown" /\
  nth_error (parse_careunit false [Some "white"]) 0 = Some "nan".
Proof.
  exact (lower_case_values_unmatched false [Some "white"] 0%nat "WHITE" eq_refl).
Defined.

(** C5, as stated, fails: changing the letter case changes the label. *)
Lemma letter_case_changes_label :
  PyStr.lower "WHITE" = "white" /\
  (forall na, parse_race na [Some "WHITE"] = ["White"]) /\
  (forall na, parse_race na [Some "white"] = ["Unknown"]) /\
  PyStr.lower "Coronary Care Unit" = "coronary care unit" /\
  (forall na, parse_careunit na [Some "Coronary Care Unit"] = ["Cardiac"]) /\
  (forall na, parse_careunit na [Some "coronary care unit"] = ["nan"]).
Proof. repeat split. Qed.

(** ** The year-anchor buckets *)

Lemma anchor_delta_cases (delta : Z) :
  (2008 <= delta < 2011 -> anchor_delta delta = Ok "2008 - 2011")%Z /\
  (2011 <= delta < 2014 -> anchor_delta delta = Ok "2011 - 2014")%Z /\
  (2014 <= delta < 2017 -> anchor_delta delta = Ok "2014 - 2017")%Z /\
  (2017 <= delta < 2020 -> anchor_delta delta = Ok "2017 - 2020")%Z /\
  (2020 <= delta < 2023 -> anchor_delta delta = Ok "2020 - 2023")%Z /\
  (delta < 2008 \/ 2023 <= delta -> anchor_delta delta = Raise UnboundLocalError)%Z.
Proof.
  unfold anchor_delta, delta_anchors, in_range. cbn [fold_left fst snd].
  repeat split; intros H;
    repeat match goal with
      | |- context [(?a <=? ?b)%Z] => destruct (Z.leb_spec a b); try lia
      | |- context [(?a <? ?b)%Z] => destruct (Z.ltb_spec a b); try lia
      end; reflexivity.
Qed.

(** At most one bucket holds a given year. *)
Lemma delta_anchors_disjoint (delta : Z) (da da' : Z * Z) :
  In da delta_anchors -> In da' delta_anchors ->
  in_range delta da = true -> in_range delta da' = true -> da = da'.
Proof.
  unfold delta_anchors, in_range. simpl.
  intros Hda Hda' H H'.
  apply andb_true_iff in H. destruct H as [H1 H2].
  apply andb_true_iff in H'. destruct H' as [H1' H2'].
  apply Z.leb_le in H1, H1'. apply Z.ltb_lt in H2, H2'.
  repeat (destruct Hda as [Hda|Hda]; [|try contradiction]);
    repeat (destruct Hda' as [Hda'|Hda']; [|try contradiction]);
    subst; simpl in *; try reflexivity; lia.
Qed.

(** C3: the code on the years inside and outside the buckets.  For every
    integer [delta] in [2008, 2023) the resolver returns the label
    "start - end" of the one bucket that holds [delta].  For every [delta]
    below 2008 or at or above 2023 no bucket assigns [output] and, for want
    of a default branch, [return output] fails with Python's
    UnboundLocalError: the code reports no out-of-range error of its own. *)
Theorem anchor_delta_buckets (delta : Z) :
  ((2008 <= delta < 2023)%Z ->
   exists da : Z * Z,
     In da delta_anchors /\
     in_range delta da = true /\
     (forall da', In da' delta_anchors -> in_range delta da' = true -> da' = da) /\
     anchor_delta delta = Ok (anchor_label da)) /\
  ((delta < 2008 \/ 2023 <= delta)%Z ->
   anchor_delta delta = Raise UnboundLocalError).
Proof.
  destruct (anchor_delta_cases delta) as (H1 & H2 & H3 & H4 & H5 & Hout).
  split; [|exact Hout].
  intros Hin.
  assert (Hbucket : exists da, In da delta_anchors /\ in_range delta da = true
                               /\ anchor_delta delta = Ok (anchor_label da)).
  { unfold in_range.
    destruct (Z_lt_le_dec delta 2011); [exists (2008, 2011)%Z|
    destruct (Z_lt_le_dec delta 2014); [exists (2011, 2014)%Z|
    destruct (Z_lt_le_dec delta 2017); [exists (2014, 2017)%Z|
    destruct (Z_lt_le_dec delta 2020); [exists (2017, 2020)%Z|
    exists (2020, 2023)%Z]]]];
    (split; [simpl; tauto|]);
    (split; [cbn [fst snd]; apply andb_true_iff; split;
             [apply Z.leb_le | apply Z.ltb_lt]; lia|]);
    [apply H1 | apply H2 | apply H3 | apply H4 | apply H5]; lia. }
  destruct Hbucket as (da & Hda & Hrange & Hres).
  exists da. repeat split; try assumption.
  intros da' Hda' Hrange'.
  exact (delta_anchors_disjoint delta da' da Hda' Hda Hrange' Hrange).
Qed.

Lemma anchor_delta_buckets_witness :
  (exists da : Z * Z,
     In da delta_anchors /\
     in_range 2019 da = true /\
     (forall da', In da' delta_anchors -> in_range 2019 da' = true -> da' = da) /\
     anchor_delta 2019 = Ok (anchor_label da)) /\
  anchor_delta 2023 = Raise UnboundLocalError.
Proof.
  split.
  - apply (proj1 (anchor_delta_buckets 2019)). lia.
  - apply (proj2 (anchor_delta_buckets 2023)). lia.
Defined.

(** Outside the buckets, at the years 2007 and 2023, the exception is
    UnboundLocalError and no OutOfRangeError. *)
Lemma anchor_delta_not_out_of_range_error :
  anchor_delta 2007 = Raise UnboundLocalError /\
  anchor_delta 2007 <> Raise OutOfRangeError /\
  anchor_delta 2023 = Raise UnboundLocalError /\
  anchor_delta 2023 <> Raise OutOfRangeError.
Proof. repeat split; discriminate. Qed.

(** ** The anchor-year scenario *)

(** An ordinary row reaches the unbound local: a patient of the group
    "2020 - 2022" with an event two years after the anchor year. *)
Lemma anchor_year_out_of_buckets :
  parse_anchor_year ["2020 - 2022"] [mkTimestamp 2182 5 1 0 0 0] [2180%Z]
  = Raise UnboundLocalError.
Proof. reflexivity. Qed.

Lemma anchor_offset_example : anchor_offset "2017 - 2019" = Ok 2018%Z.
Proof. reflexivity. Qed.

(** C8 (as amended): for the group "2017 - 2019", anchor year 2018 and an
    event in the year 2019 the resolver returns "2017 - 2020": the offset is
    2017 + 1 = 2018, the re-anchored year is 2018 + (2019 - 2018) = 2019. *)
Theorem anchor_year_scenario (mo d h mi s : Z) :
  parse_anchor_year ["2017 - 2019"] [mkTimestamp 2019 mo d h mi s] [2018%Z]
  = Ok ["2017 - 2020"].
Proof. reflexivity. Qed.

(** C8, as stated, fails: the result is not "2020 - 2023". *)
Lemma anchor_year_scenario_not_2020 :
  parse_anchor_year ["2017 - 2019"] [mkTimestamp 2019 6 15 12 0 0] [2018%Z]
  <> Ok ["2020 - 2023"].
Proof. discriminate. Qed.

(** On columns of one row [parse_anchor_year] is [parse_anchor_year_row]. *)
Lemma parse_anchor_year_single (g : string) (date : Timestamp) (a : Z) :
  parse_anchor_year [g] [date] [a]
  = (label <- parse_anchor_year_row (g, date, a) ;; Ok [label]).
Proof.
  unfold parse_anchor_year, parse_anchor_year_row. simpl.
  destruct (anchor_offset g) as [off|e]; simpl; [|reflexivity].
  destruct (anchor_delta (off + (year date - a))); reflexivity.
Qed.

(** ** Time of day *)

Lemma time_entry_cases (t : Timestamp) :
  (0 <= hour t < 6 -> time_entry (Some t) = "00-06")%Z /\
  (6 <= hour t < 12 -> time_entry (Some t) = "06-12")%Z /\
  (12 <= hour t < 18 -> time_entry (Some t) = "12-18")%Z /\
  (18 <= hour t <= 24 -> time_entry (Some t) = "18-24")%Z.
Proof.
  unfold time_entry, remap_entry, entry_step, hour_between, between_entry, time_mapping.
  cbn [fold_left fst snd option_map str_of_cell].
  repeat split; intros H;
    repeat match goal with
      | |- context [(?a <=? ?b)%Z] => destruct (Z.leb_spec a b); try lia
      end; reflexivity.
Qed.

(** C10: in [parse_time] both ends of an hour range are included, so the
    hours 6, 12 and 18 match two adjacent rules each and are labelled with the
    later bucket ("06-12", "12-18", "18-24"); every hour from 0 to 23 matches
    a rule, so the row of a valid timestamp gets one of the four bucket
    labels and never the text [nan] of an unmatched row. *)
Theorem time_of_day_buckets (values : list (option Timestamp)) (n : nat) (t : Timestamp) :
  nth_error values n = Some (Some t) ->
  (hour t = 6%Z ->
   hour_between (0, 6)%Z (Some t) = true /\ hour_between (6, 12)%Z (Some t) = true /\
   nth_error (parse_time values) n = Some "06-12") /\
  (hour t = 12%Z ->
   hour_between (6, 12)%Z (Some t) = true /\ hour_between (12, 18)%Z (Some t) = true /\
   nth_error (parse_time values) n = Some "12-18") /\
  (hour t = 18%Z ->
   hour_between (12, 18)%Z (Some t) = true /\ hour_between (18, 24)%Z (Some t) = true /\
   nth_error (parse_time values) n = Some "18-24") /\
  (valid_timestamp t ->
   (exists key item, In (key, item) time_mapping /\ hour_between item (Some t) = true) /\
   (exists label,
      nth_error (parse_time values) n = Some label /\
      In label ["00-06"; "06-12"; "12-18"; "18-24"] /\
      label <> "nan")).
Proof.
  intros Hv.
  rewrite parse_time_rows, nth_error_map, Hv. simpl option_map.
  destruct (time_entry_cases t) as (H0 & H6 & H12 & H18).
  unfold hour_between, between_entry. cbn [fst snd option_map].
  repeat split.
  - rewrite H. reflexivity.
  - rewrite H. reflexivity.
  - rewrite H6 by lia. reflexivity.
  - rewrite H. reflexivity.
  - rewrite H. reflexivity.
  - rewrite H12 by lia. reflexivity.
  - rewrite H. reflexivity.
  - rewrite H. reflexivity.
  - rewrite H18 by lia. reflexivity.
  - destruct H as (_ & _ & Hh & _).
    destruct (Z_lt_le_dec (hour t) 6); [exists "00-06", (0, 6)%Z|
    destruct (Z_lt_le_dec (hour t) 12); [exists "06-12", (6, 12)%Z|
    destruct (Z_lt_le_dec (hour t) 18); [exists "12-18", (12, 18)%Z|
    exists "18-24", (18, 24)%Z]]];
    (split; [simpl; tauto|]);
    cbn [fst snd]; apply andb_true_iff; split; apply Z.leb_le; lia.
  - destruct H as (_ & _ & Hh & _).
    destruct (Z_lt_le_dec (hour t) 6); [exists "00-06"; rewrite H0 by lia|
    destruct (Z_lt_le_dec (hour t) 12); [exists "06-12"; rewrite H6 by lia|
    destruct (Z_lt_le_dec (hour t) 18); [exists "12-18"; rewrite H12 by lia|
    exists "18-24"; rewrite H18 by lia]]];
    (split; [reflexivity|]); (split; [simpl; tauto | discriminate]).
Qed.

Lemma time_of_day_buckets_witness :
  nth_error (parse_time [Some (mkTimestamp 2150 3 14 6 30 0)]) 0 = Some "06-12" /\
  (exists label,
      nth_error (parse_time [Some (mkTimestamp 2150 3 14 6 30 0)]) 0 = Some label /\
      In label ["00-06"; "06-12"; "12-18"; "18-24"] /\
      label <> "nan").
Proof.
  pose proof (time_of_day_buckets [Some (mkTimestamp 2150 3 14 6 30 0)] 0%nat
                (mkTimestamp 2150 3 14 6 30 0) eq_refl) as (H6 & _ & _ & Hvalid).
  split.
  - exact (proj2 (proj2 (H6 eq_refl))).
  - apply Hvalid. unfold valid_timestamp. simpl. lia.
Defined.

(** ** The BMI categories *)

(** C6 (as amended): the boundary 18.5 belongs to the branch that reads the
    ethnicity (a missing race raises there, while 18.49 is "Underweight"
    whatever the race).  With an ethnicity text containing "asian" in any
    letter case, 18.5 is "Normal", 24.9 is "Overweight" and 25.0 is
    "Obesity"; 29.9 with a text that does not contain "asian" is
    "Overweight". *)
Theorem bmi_boundaries :
  (forall ethnicity,
      PyStr.contains "asian" (PyStr.lower ethnicity) = true ->
      __parse__ 18.5 (Some ethnicity) = Ok "Normal" /\
      __parse__ 24.9 (Some ethnicity) = Ok "Overweight" /\
      __parse__ 25.0 (Some ethnicity) = Ok "Obesity") /\
  (forall ethnicity,
      PyStr.contains "asian" (PyStr.lower ethnicity) = false ->
      __parse__ 18.5 (Some ethnicity) = Ok "Normal" /\
      __parse__ 29.9 (Some ethnicity) = Ok "Overweight") /\
  (forall race, __parse__ 18.49 race = Ok "Underweight") /\
  __parse__ 18.5 None = Raise AttributeError /\
  __parse__ 18.5 (Some "Asian") = Ok "Normal" /\
  __parse__ 18.5 (Some "ASIAN - CHINESE") = Ok "Normal" /\
  __parse__ 25.0 (Some "Asian") = Ok "Obesity" /\
  __parse__ 24.9 (Some "Asian") = Ok "Overweight" /\
  __parse__ 29.9 (Some "WHITE") = Ok "Overweight".
Proof.
  split; [|split].
  - intros ethnicity Hasian. unfold __parse__. rewrite Hasian. repeat split.
  - intros ethnicity Hother. unfold __parse__. rewrite Hother. repeat split.
  - split; [intros race; reflexivity|]. repeat apply conj; reflexivity.
Qed.

Lemma bmi_boundaries_witness :
  PyStr.contains "asian" (PyStr.lower "Asian") = true /\
  __parse__ 18.5 (Some "Asian") = Ok "Normal" /\
  __parse__ 24.9 (Some "Asian") = Ok "Overweight" /\
  __parse__ 25.0 (Some "Asian") = Ok "Obesity" /\
  PyStr.contains "asian" (PyStr.lower "WHITE") = false /\
  __parse__ 29.9 (Some "WHITE") = Ok "Overweight".
Proof.
  split; [reflexivity|].
  destruct (proj1 bmi_boundaries "Asian" eq_refl) as (H1 & H2 & H3).
  repeat (split; [assumption|]).
  split; [reflexivity|].
  exact (proj2 (proj1 (proj2 bmi_boundaries) "WHITE" eq_refl)).
Defined.

(** C6, as stated, fails on its last case: the ethnicity test is a substring
    test, and the text "Caucasian" contains "asian".  A BMI of 29.9 with the
    ethnicity "Caucasian" is classified with the thresholds for Asian
    patients: "Obesity", not "Overweight". *)
Lemma caucasian_contains_asian :
  PyStr.lower "Caucasian" = "caucasian" /\
  PyStr.contains "asian" "caucasian" = true /\
  __parse__ 29.9 (Some "Caucasian") = Ok "Obesity" /\
  __parse__ 29.9 (Some "Caucasian") <> Ok "Overweight".
Proof. repeat apply conj; try reflexivity. discriminate. Qed.

(** C7: for every BMI below 16.5 the classifier returns the label
    "Severly Underweight", as the source spells it, which is not the label
    "Severely Underweight". *)
Theorem severely_underweight_label (bmi : float) (race : option string) :
  (bmi <? 16.5)%float = true ->
  __parse__ bmi race = Ok "Severly Underweight" /\
  __parse__ bmi race <> Ok "Severely Underweight".
Proof.
  intros Hlow. unfold __parse__. rewrite Hlow.
  split; [reflexivity | discriminate].
Qed.

Lemma severely_underweight_label_witness :
  (16 <? 16.5)%float = true /\
  __parse__ 16 (Some "WHITE") = Ok "Severly Underweight" /\
  __parse__ 16 (Some "WHITE") <> Ok "Severely Underweight".
Proof.
  split; [reflexivity|].
  exact (severely_underweight_label 16 (Some "WHITE") eq_refl).
Defined.

(** ** Height imputation *)

Lemma apply_rows_map {A B C : Type} (g : A -> B) (f : B -> result C) (rows : list A) :
  apply_rows f (map g rows) = apply_rows (fun r => f (g r)) rows.
Proof.
  induction rows as [|r rows IH]; simpl; [reflexivity | now rewrite IH].
Qed.

Lemma apply_rows_nth {A B : Type} (f : A -> result B) (rows : list A) :
  forall (out : list B) (i : nat) (r : A),
    apply_rows f rows = Ok out ->
    nth_error rows i = Some r ->
    exists y, f r = Ok y /\ nth_error out i = Some y.
Proof.
  induction rows as [|r0 rows IH]; intros out i r Hout Hr.
  - destruct i; discriminate Hr.
  - simpl in Hout.
    destruct (f r0) as [y0|e] eqn:Hf0; simpl in Hout; [|discriminate Hout].
    destruct (apply_rows f rows) as [ys|e] eqn:Hrows; simpl in Hout; [|discriminate Hout].
    injection Hout as <-.
    destruct i as [|i]; simpl in Hr.
    + injection Hr as <-. exists y0. split; [exact Hf0 | reflexivity].
    + exact (IH ys i r eq_refl Hr).
Qed.

Lemma combine_map_self {A B : Type} (f : A -> B) (l : list A) :
  combine l (map f l) = map (fun a => (a, f a)) l.
Proof.
  induction l as [|a l IH]; simpl; [reflexivity | now rewrite IH].
Qed.

(** [parse_bmi] classifies each row from the row itself and, when heights are
    imputed, from the mean of the heights of the batch it was given. *)
Lemma parse_bmi_rows (values : list bmi_row) (impute_heights : bool) :
  parse_bmi values impute_heights
  = apply_rows
      (fun r => __parse__ (bmi_of (weight r)
                             (height_used impute_heights
                                (nanmean (map height values)) (height r)))
                          (race r))
      values.
Proof.
  unfold parse_bmi, imputed_heights, height_used.
  destruct impute_heights.
  - rewrite map_map, combine_map_self, !apply_rows_map. reflexivity.
  - rewrite combine_map_self, !apply_rows_map. reflexivity.
Qed.

(** ** [parse_bmi] returns when every race is present *)

Lemma SFcompare_antisym (X Y : spec_float) (c : comparison) :
  SFcompare X Y = Some c -> SFcompare Y X = Some (CompOpp c).
Proof.
  destruct X as [sx|sx| |sx mx ex], Y as [sy|sy| |sy my ey]; simpl;
    try discriminate; intros H; injection H as <-;
    try destruct sx; try destruct sy; try reflexivity;
    rewrite (Z.compare_antisym ex ey); destruct (ex ?= ey)%Z; simpl; try reflexivity;
    rewrite (Pos.compare_cont_antisym mx my Eq); reflexivity.
Qed.

Lemma SFcompare_defined (X Y : spec_float) :
  X <> S754_nan -> Y <> S754_nan -> exists c, SFcompare X Y = Some c.
Proof.
  intros HX HY.
  destruct X as [sx|sx| |sx mx ex], Y as [sy|sy| |sy my ey]; simpl;
    try congruence; eexists; reflexivity.
Qed.

Lemma SFleb_defined (X Y : spec_float) :
  SFleb X Y = true -> X <> S754_nan /\ Y <> S754_nan.
Proof.
  unfold SFleb.
  destruct X as [sx|sx| |sx mx ex], Y as [sy|sy| |sy my ey]; simpl;
    try discriminate; intros _; split; discriminate.
Qed.

(** On floats that are not NaN the order is total: a BMI that compares with
    some bound [lo] and is not below the threshold [c] is at least [c]. *)
Lemma not_below_is_at_least (x c lo : float) :
  (lo <=? x)%float = true -> (c <=? c)%float = true ->
  (x <? c)%float = false -> (c <=? x)%float = true.
Proof.
  rewrite !leb_spec, ltb_spec.
  intros Hlo Hc Hlt.
  apply SFleb_defined in Hlo, Hc.
  destruct (SFcompare_defined (Prim2SF x) (Prim2SF c)) as [cmp Hcmp]; [tauto|tauto|].
  unfold SFleb, SFltb in *. rewrite Hcmp in Hlt.
  rewrite (SFcompare_antisym _ _ _ Hcmp). destruct cmp; try reflexivity. discriminate.
Qed.

(** With a race text [__parse__] always assigns [output]: the chains of
    [if]/[elif] cover every BMI, NaN included. *)
Lemma parse_returns (bmi : float) (ethnicity : string) :
  exists label, __parse__ bmi (Some ethnicity) = Ok label /\ In label bmi_labels.
Proof.
  unfold __parse__, bmi_labels.
  destruct (bmi <? 16.5)%float; [eexists; split; [reflexivity | simpl; tauto]|].
  destruct ((16.5 <=? bmi) && (bmi <? 18.5))%float;
    [eexists; split; [reflexivity | simpl; tauto]|].
  destruct (18.5 <=? bmi)%float eqn:H185;
    [|eexists; split; [reflexivity | simpl; tauto]].
  cbn [andb].
  destruct (PyStr.contains "asian" (PyStr.lower ethnicity)).
  - destruct (bmi <? 23.0)%float eqn:H23; [eexists; split; [reflexivity | simpl; tauto]|].
    rewrite (not_below_is_at_least bmi 23.0 18.5 H185 eq_refl H23). cbn [andb].
    destruct (bmi <? 25.0)%float eqn:H25; [eexists; split; [reflexivity | simpl; tauto]|].
    rewrite (not_below_is_at_least bmi 25.0 18.5 H185 eq_refl H25).
    eexists; split; [reflexivity | simpl; tauto].
  - destruct (bmi <? 25.0)%float eqn:H25; [eexists; split; [reflexivity | simpl; tauto]|].
    rewrite (not_below_is_at_least bmi 25.0 18.5 H185 eq_refl H25). cbn [andb].
    destruct (bmi <? 30.0)%float eqn:H30; [eexists; split; [reflexivity | simpl; tauto]|].
    rewrite (not_below_is_at_least bmi 30.0 18.5 H185 eq_refl H30).
    eexists; split; [reflexivity | simpl; tauto].
Qed.

Lemma apply_rows_total {A B : Type} (f : A -> result B) (rows : list A) :
  Forall (fun r => exists y, f r = Ok y) rows ->
  exists out, apply_rows f rows = Ok out /\ List.length out = List.length rows.
Proof.
  induction 1 as [|r rows [y Hy] _ (out & Hout & Hlen)]; simpl.
  - exists []. split; reflexivity.
  - exists (y :: out). rewrite Hy, Hout. simpl. split; [reflexivity | now rewrite Hlen].
Qed.

(** When every row has a race text, [parse_bmi] raises nothing and returns
    one label per row. *)
Lemma parse_bmi_returns (values : list bmi_row) (impute_heights : bool) :
  Forall (fun r => race r <> None) values ->
  exists out,
    parse_bmi values impute_heights = Ok out /\
    List.length out = List.length values.
Proof.
  intros Hrace. rewrite parse_bmi_rows.
  apply apply_rows_total.
  apply Forall_forall. intros r Hr.
  rewrite Forall_forall in Hrace. specialize (Hrace r Hr).
  destruct (race r) as [ethnicity|]; [|congruence].
  destruct (parse_returns
              (bmi_of (weight r)
                 (height_used impute_heights (nanmean (map height values)) (height r)))
              ethnicity) as (label & Hlabel & _).
  exists label. exact Hlabel.
Qed.

Section BmiLibraryFacts.

Variable series_mean : list float -> float.
Variable power_neg2 : float -> float.

Lemma parse_bmi_with_rows (values : list bmi_row) (impute_heights : bool) :
  parse_bmi_with series_mean power_neg2 values impute_heights
  = apply_rows
      (fun r => __parse__ (row_bmi_with series_mean power_neg2 impute_heights values r)
                          (race r))
      values.
Proof.
  unfold parse_bmi_with, imputed_heights_with, row_bmi_with, height_used.
  destruct impute_heights.
  - rewrite map_map, combine_map_self, !apply_rows_map. reflexivity.
  - rewrite combine_map_self, !apply_rows_map. reflexivity.
Qed.

(** Whatever the mean and the power are, [parse_bmi] returns when every row
    has a race text. *)
Lemma parse_bmi_with_returns (values : list bmi_row) (impute_heights : bool) :
  Forall (fun r => race r <> None) values ->
  exists out,
    parse_bmi_with series_mean power_neg2 values impute_heights = Ok out /\
    List.length out = List.length values.
Proof.
  intros Hrace. rewrite parse_bmi_with_rows.
  apply apply_rows_total.
  apply Forall_forall. intros r Hr.
  rewrite Forall_forall in Hrace. specialize (Hrace r Hr).
  destruct (race r) as [ethnicity|]; [|congruence].
  destruct (parse_returns
              (row_bmi_with series_mean power_neg2 impute_heights values r) ethnicity)
    as (label & Hlabel & _).
  exists label. exact Hlabel.
Qed.

(** Two batches that agree on row [i] give it the same label, once both
    calls have returned, when the mean of the heights is the same for both
    or imputation is disabled. *)
Lemma same_row_same_mean (impute_heights : bool) (b1 b2 : list bmi_row)
    (out1 out2 : list string) (i : nat) (r : bmi_row) :
  nth_error b1 i = Some r ->
  nth_error b2 i = Some r ->
  (impute_heights = true -> series_mean (map height b1) = series_mean (map height b2)) ->
  parse_bmi_with series_mean power_neg2 b1 impute_heights = Ok out1 ->
  parse_bmi_with series_mean power_neg2 b2 impute_heights = Ok out2 ->
  exists label,
    nth_error out1 i = Some label /\
    nth_error out2 i = Some label /\
    __parse__ (row_bmi_with series_mean power_neg2 impute_heights b1 r) (race r) = Ok label.
Proof.
  intros Hr1 Hr2 Hmean Hout1 Hout2.
  rewrite parse_bmi_with_rows in Hout1, Hout2.
  destruct (apply_rows_nth _ _ _ _ _ Hout1 Hr1) as (y1 & Hy1 & Hn1).
  destruct (apply_rows_nth _ _ _ _ _ Hout2 Hr2) as (y2 & Hy2 & Hn2).
  assert (Hsame : row_bmi_with series_mean power_neg2 impute_heights b2 r
                  = row_bmi_with series_mean power_neg2 impute_heights b1 r).
  { unfold row_bmi_with, height_used.
    destruct impute_heights; [|reflexivity]. now rewrite Hmean. }
  rewrite Hsame, Hy1 in Hy2. injection Hy2 as <-.
  exists y1. repeat split; assumption.
Qed.

End BmiLibraryFacts.

(** The embedding of [parse_bmi] with [nanmean] and [pow_neg2] is the one
    with these two routines for the mean and the power. *)
Lemma parse_bmi_instance (values : list bmi_row) (impute_heights : bool) :
  parse_bmi values impute_heights
  = parse_bmi_with nanmean pow_neg2 values impute_heights.
Proof. reflexivity. Qed.

(** C9 (as amended): the height substituted for a missing one is the mean
    that [Series.mean()] returns on the heights of the batch itself;
    [parse_bmi] takes no mean from its caller.  So, whatever the routines for
    the mean and for the power compute, for two batches (with a race text in
    every row) that agree on row [i], both calls return and give row [i] the
    same label when, imputation being enabled, the mean of the height column
    is the same for the two batches, and whenever imputation is disabled. *)
Theorem bmi_label_same_mean (series_mean : list float -> float)
    (power_neg2 : float -> float) (impute_heights : bool) (b1 b2 : list bmi_row)
    (i : nat) (r : bmi_row) :
  Forall (fun r => race r <> None) b1 ->
  Forall (fun r => race r <> None) b2 ->
  nth_error b1 i = Some r ->
  nth_error b2 i = Some r ->
  (impute_heights = true -> series_mean (map height b1) = series_mean (map height b2)) ->
  exists out1 out2 label,
    parse_bmi_with series_mean power_neg2 b1 impute_heights = Ok out1 /\
    parse_bmi_with series_mean power_neg2 b2 impute_heights = Ok out2 /\
    nth_error out1 i = Some label /\
    nth_error out2 i = Some label /\
    __parse__ (weight r
               * power_neg2
                   (height_used impute_heights (series_mean (map height b1)) (height r)
                    / 100))%float
              (race r) = Ok label.
Proof.
  intros Hrace1 Hrace2 Hr1 Hr2 Hmean.
  destruct (parse_bmi_with_returns series_mean power_neg2 b1 impute_heights Hrace1)
    as (out1 & Hout1 & _).
  destruct (parse_bmi_with_returns series_mean power_neg2 b2 impute_heights Hrace2)
    as (out2 & Hout2 & _).
  destruct (same_row_same_mean series_mean power_neg2 impute_heights b1 b2 out1 out2 i r
              Hr1 Hr2 Hmean Hout1 Hout2) as (label & H1 & H2 & H3).
  exists out1, out2, label. repeat split; assumption.
Qed.

Lemma bmi_label_same_mean_witness :
  exists out1 out2 label,
    parse_bmi_with nanmean pow_neg2
      [mkRow 60 PrimFloat.nan (Some "WHITE"); mkRow 70 150 (Some "WHITE")] true
    = Ok out1 /\
    parse_bmi_with nanmean pow_neg2
      [mkRow 60 PrimFloat.nan (Some "WHITE"); mkRow 90 150 (Some "BLACK")] true
    = Ok out2 /\
    nth_error out1 0 = Some label /\
    nth_error out2 0 = Some label /\
    __parse__ (60 * pow_neg2
                 (height_used true
                    (nanmean (map height
                       [mkRow 60 PrimFloat.nan (Some "WHITE"); mkRow 70 150 (Some "WHITE")]))
                    PrimFloat.nan / 100))%float
              (Some "WHITE") = Ok label.
Proof.
  apply (bmi_label_same_mean nanmean pow_neg2 true
           [mkRow 60 PrimFloat.nan (Some "WHITE"); mkRow 70 150 (Some "WHITE")]
           [mkRow 60 PrimFloat.nan (Some "WHITE"); mkRow 90 150 (Some "BLACK")]
           0%nat (mkRow 60 PrimFloat.nan (Some "WHITE"))).
  - repeat constructor; discriminate.
  - repeat constructor; discriminate.
  - reflexivity.
  - reflexivity.
  - intros _. reflexivity.
Defined.

(** C9, as stated, fails: a row of 60 kg without a height, in a batch whose
    other row is 150 cm tall, is "Overweight"; the same row in a batch whose
    other row is 200 cm tall is "Severly Underweight".  The two batches agree
    on the first row and no mean was supplied. *)
Lemma bmi_label_depends_on_other_heights :
  parse_bmi [mkRow 60 PrimFloat.nan (Some "WHITE"); mkRow 70 150 (Some "WHITE")] true
  = Ok ["Overweight"; "Obesity"] /\
  parse_bmi [mkRow 60 PrimFloat.nan (Some "WHITE"); mkRow 70 200 (Some "WHITE")] true
  = Ok ["Severly Underweight"; "Underweight"] /\
  ~ (forall (b1 b2 : list bmi_row) (out1 out2 : list string) (i : nat) (r : bmi_row),
        nth_error b1 i = Some r ->
        nth_error b2 i = Some r ->
        parse_bmi b1 true = Ok out1 ->
        parse_bmi b2 true = Ok out2 ->
        nth_error out1 i = nth_error out2 i).
Proof.
  split; [reflexivity|]. split; [reflexivity|].
  intros Hsame.
  specialize (Hsame
    [mkRow 60 PrimFloat.nan (Some "WHITE"); mkRow 70 150 (Some "WHITE")]
    [mkRow 60 PrimFloat.nan (Some "WHITE"); mkRow 70 200 (Some "WHITE")]
    _ _ 0%nat _ eq_refl eq_refl eq_refl eq_refl).
  discriminate Hsame.
Qed.

(** ** Admission locations *)

Lemma is_cased_lower_char (c : ascii) : is_cased (PyStr.lower_char c) = is_cased c.
Proof. each_ascii c. Qed.

Lemma is_cased_upper_char (c : ascii) : is_cased (upper_char c) = is_cased c.
Proof. each_ascii c. Qed.

Lemma lower_char_idem (c : ascii) : PyStr.lower_char (PyStr.lower_char c) = PyStr.lower_char c.
Proof. each_ascii c. Qed.

Lemma upper_of_lower_char (c : ascii) : upper_char (PyStr.lower_char c) = upper_char c.
Proof. each_ascii c. Qed.

Lemma lower_of_upper_char (c : ascii) : PyStr.lower_char (upper_char c) = PyStr.lower_char c.
Proof. each_ascii c. Qed.

(** Title-casing does not look at the case of the letters it is given. *)
Lemma title_from_lower (s : string) :
  forall b : bool, title_from b (PyStr.lower s) = title_from b s.
Proof.
  induction s as [|c s IH]; intros b; simpl.
  - reflexivity.
  - rewrite is_cased_lower_char, IH.
    destruct b; [rewrite lower_char_idem | rewrite upper_of_lower_char]; reflexivity.
Qed.

(** Title-casing changes nothing but the case of letters. *)
Lemma lower_title_from (s : string) :
  forall b : bool, PyStr.lower (title_from b s) = PyStr.lower s.
Proof.
  induction s as [|c s IH]; intros b; simpl.
  - reflexivity.
  - rewrite IH.
    destruct b; [rewrite lower_char_idem | rewrite lower_of_upper_char]; reflexivity.
Qed.

(** A text has the title-cased form [t] exactly when it equals [t] up to
    letter case. *)
Lemma title_is (t s : string) :
  title t = t -> (title s = t <-> PyStr.lower s = PyStr.lower t).
Proof.
  intros Ht. unfold title in *. split; intros H.
  - rewrite <- H. symmetry. apply lower_title_from.
  - rewrite <- (title_from_lower s), H, title_from_lower. exact Ht.
Qed.

Lemma np_where_column_rows (f : option string -> bool) (temp : list (option string))
    (y : string) :
  np_where_column (map f temp) temp y
  = map (fun t => if f t then cell_of_entry t else Str y) temp.
Proof.
  unfold np_where_column.
  induction temp as [|t temp IH]; simpl; [reflexivity | now rewrite IH].
Qed.

Lemma admission_entry (s : string) :
  (if isin_entry admission_locations (Some (title s)) then Str (title s) else Str "Other")
  = Str (admission_label (Some s)).
Proof.
  unfold isin_entry, admission_locations, admission_label. cbn [existsb].
  destruct (String.eqb_spec (PyStr.lower s) "emergency room") as [E1|N1].
  { apply (title_is "Emergency Room" s eq_refl) in E1. rewrite E1. reflexivity. }
  destruct (String.eqb_spec (PyStr.lower s) "physician referral") as [E2|N2].
  { apply (title_is "Physician Referral" s eq_refl) in E2. rewrite E2. reflexivity. }
  destruct (String.eqb_spec (PyStr.lower s) "transfer from hospital") as [E3|N3].
  { apply (title_is "Transfer From Hospital" s eq_refl) in E3. rewrite E3. reflexivity. }
  destruct (String.eqb_spec (title s) "Emergency Room") as [T1|_].
  { apply (title_is "Emergency Room" s eq_refl) in T1. contradiction. }
  destruct (String.eqb_spec (title s) "Physician Referral") as [T2|_].
  { apply (title_is "Physician Referral" s eq_refl) in T2. contradiction. }
  destruct (String.eqb_spec (title s) "Transfer From Hospital") as [T3|_].
  { apply (title_is "Transfer From Hospital" s eq_refl) in T3. contradiction. }
  reflexivity.
Qed.

Lemma parse_admission_location_rows (values : list (option string)) :
  parse_admission_location values = map (fun v => Str (admission_label v)) values.
Proof.
  unfold parse_admission_location, isin, str_title.
  rewrite np_where_column_rows, map_map.
  apply map_ext. intros [s|]; [apply admission_entry | reflexivity].
Qed.

Lemma admission_label_closed (v : option string) :
  In (admission_label v) ("Other" :: admission_locations).
Proof.
  unfold admission_label, admission_locations. destruct v as [s|]; [|simpl; tauto].
  repeat match goal with
    | |- context [String.eqb ?a ?b] => destruct (String.eqb a b)
    end; simpl; tauto.
Qed.

Lemma admission_label_fixed (l : string) :
  In l ("Other" :: admission_locations) -> admission_label (Some l) = l.
Proof.
  unfold admission_locations. simpl.
  intros [<-|[<-|[<-|[<-|[]]]]]; reflexivity.
Qed.

(** X1: [parse_admission_location] matches the whole text of an entry,
    ignoring letter case: the entry is labelled "Emergency Room", "Physician
    Referral" or "Transfer From Hospital" exactly when its lower-cased text
    is that label lower-cased; every other entry, and every missing one, is
    labelled "Other". *)
Theorem admission_location_labels (values : list (option string)) :
  parse_admission_location values = map (fun v => Str (admission_label v)) values.
Proof. apply parse_admission_location_rows. Qed.

(** X2: two columns whose entries agree up to letter case (and are missing at
    the same rows) get the same admission labels. *)
Theorem admission_location_ignores_case (values1 values2 : list (option string)) :
  map (option_map PyStr.lower) values1 = map (option_map PyStr.lower) values2 ->
  parse_admission_location values1 = parse_admission_location values2.
Proof.
  rewrite !parse_admission_location_rows.
  revert values2.
  induction values1 as [|v1 values1 IH]; intros [|v2 values2] H; simpl in *;
    try discriminate H; [reflexivity|].
  injection H as Hv H. rewrite (IH values2 H). f_equal.
  destruct v1 as [s1|], v2 as [s2|]; simpl in Hv; try discriminate Hv; [|reflexivity].
  injection Hv as Hv. unfold admission_label. rewrite Hv. reflexivity.
Qed.

Lemma admission_location_ignores_case_witness :
  parse_admission_location [Some "EMERGENCY ROOM"; None; Some "Walk-In/Self Referral"]
  = parse_admission_location [Some "emergency Room"; None; Some "WALK-IN/SELF REFERRAL"].
Proof.
  exact (admission_location_ignores_case
           [Some "EMERGENCY ROOM"; None; Some "Walk-In/Self Referral"]
           [Some "emergency Room"; None; Some "WALK-IN/SELF REFERRAL"] eq_refl).
Defined.

(** X3: the output of [parse_admission_location] holds one text per input
    row, never a NaN, each among "Other" and the three admission locations;
    parsing that output again returns it unchanged. *)
Theorem admission_location_closed_idempotent (values : list (option string)) :
  exists labels : list string,
    parse_admission_location values = map Str labels /\
    List.length labels = List.length values /\
    Forall (fun l => In l ("Other" :: admission_locations)) labels /\
    parse_admission_location (map Some labels) = map Str labels.
Proof.
  exists (map admission_label values).
  rewrite !parse_admission_location_rows, !map_map, length_map.
  repeat split.
  - apply Forall_forall. intros l Hl. apply in_map_iff in Hl.
    destruct Hl as (v & <- & _). apply admission_label_closed.
  - apply map_ext. intros v. f_equal.
    apply admission_label_fixed, admission_label_closed.
Qed.

(** ** The column parsers as row-wise maps *)

(** X4: every column parser returns exactly one entry per input row, for
    every column, the empty one included. *)
Theorem column_parsers_keep_length (na : bool) (values : list (option string))
    (times : list (option Timestamp)) :
  List.length (parse_gender na values) = List.length values /\
  List.length (parse_race na values) = List.length values /\
  List.length (parse_language na values) = List.length values /\
  List.length (parse_insurance na values) = List.length values /\
  List.length (parse_careunit na values) = List.length values /\
  List.length (parse_admission_location values) = List.length values /\
  List.length (parse_time times) = List.length times.
Proof.
  rewrite parse_gender_rows, parse_race_rows, parse_language_rows,
    parse_insurance_rows, parse_careunit_rows, parse_admission_location_rows,
    parse_time_rows.
  rewrite !length_map. repeat split; reflexivity.
Qed.

(** X5: no row influences another: parsing two columns one after the other
    gives the same entries as parsing their concatenation, for every column
    parser. *)
Theorem column_parsers_split (na : bool) (values1 values2 : list (option string))
    (times1 times2 : list (option Timestamp)) :
  (parse_gender na (values1 ++ values2) = parse_gender na values1 ++ parse_gender na values2 /\
   parse_race na (values1 ++ values2) = parse_race na values1 ++ parse_race na values2 /\
   parse_language na (values1 ++ values2)
   = parse_language na values1 ++ parse_language na values2 /\
   parse_insurance na (values1 ++ values2)
   = parse_insurance na values1 ++ parse_insurance na values2 /\
   parse_careunit na (values1 ++ values2)
   = parse_careunit na values1 ++ parse_careunit na values2 /\
   parse_admission_location (values1 ++ values2)
   = parse_admission_location values1 ++ parse_admission_location values2 /\
   parse_time (times1 ++ times2) = parse_time times1 ++ parse_time times2)%list.
Proof.
  rewrite !parse_gender_rows, !parse_race_rows, !parse_language_rows,
    !parse_insurance_rows, !parse_careunit_rows, !parse_admission_location_rows,
    !parse_time_rows.
  rewrite !map_app. repeat split; reflexivity.
Qed.

Lemma text_entry_closed (na : bool) (mapping : list (string * regex)) (v : option string) :
  In (text_entry na mapping v) ("nan" :: map fst mapping).
Proof. apply remap_entry_closed. Qed.

Lemma replace_entry_closed (default s : string) (labels : list string) :
  In s ("nan" :: labels) -> In (replace_entry "nan" default s) (default :: labels).
Proof.
  unfold replace_entry. intros [<-|Hs]; [now left|].
  destruct (String.eqb s "nan"); [now left | now right].
Qed.

(** X6: the label set of every categorical parser is closed: each output
    entry is a label of the parser's table or its no-match value ("Other" for
    gender, "Unknown" for race, the text "nan" for the four others). *)
Theorem categorical_labels_closed (na : bool) (values : list (option string))
    (times : list (option Timestamp)) :
  Forall (fun l => In l ["Other"; "Male"; "Female"]) (parse_gender na values) /\
  Forall (fun l => In l ["Unknown"; "White"; "Hispanic"; "Asian"; "Black"; "Other"])
         (parse_race na values) /\
  Forall (fun l => In l ["nan"; "English"; "Other"]) (parse_language na values) /\
  Forall (fun l => In l ["nan"; "Medicaid"; "Medicare"; "Other"])
         (parse_insurance na values) /\
  Forall (fun l => In l ["nan"; "Medical-Surgical"; "Cardiac"; "Neuro-Trauma"])
         (parse_careunit na values) /\
  Forall (fun l => In l ["nan"; "00-06"; "06-12"; "12-18"; "18-24"]) (parse_time times).
Proof.
  rewrite parse_gender_rows, parse_race_rows, parse_language_rows,
    parse_insurance_rows, parse_careunit_rows, parse_time_rows.
  repeat split; apply Forall_forall; intros l Hl; apply in_map_iff in Hl;
    destruct Hl as (v & <- & _).
  - apply (replace_entry_closed "Other" _ (map fst gender_mapping)), text_entry_closed.
  - apply (replace_entry_closed "Unknown" _ (map fst race_mapping)), text_entry_closed.
  - apply (text_entry_closed na language_mapping).
  - apply (text_entry_closed na insurance_mapping).
  - apply (text_entry_closed na careunit_mapping).
  - apply (remap_entry_closed hour_between time_mapping).
Qed.

(** ** The loop as a decision list *)

Lemma remap_entry_scan {P V : Type} (hit : P -> V -> bool)
    (mapping : list (string * P)) (v : V) :
  str_of_cell (remap_entry hit mapping v) = scan_reversed hit mapping "nan" v.
Proof.
  unfold remap_entry, scan_reversed.
  induction mapping as [|kp mapping IH] using rev_ind.
  - reflexivity.
  - rewrite fold_left_app, rev_app_distr. simpl.
    unfold entry_step at 1. simpl.
    destruct (hit (snd kp) v); [reflexivity | exact IH].
Qed.

Lemma scan_reversed_default {P V : Type} (hit : P -> V -> bool)
    (mapping : list (string * P)) (default : string) (v : V) :
  Forall (fun k => k <> "nan") (map fst mapping) ->
  replace_entry "nan" default (scan_reversed hit mapping "nan" v)
  = scan_reversed hit mapping default v.
Proof.
  intros Hlabels. unfold scan_reversed, replace_entry.
  destruct (find (fun kp => hit (snd kp) v) (rev mapping)) as [kp|] eqn:Hfind.
  - apply find_some in Hfind. destruct Hfind as [Hin _].
    apply in_rev in Hin. apply (in_map fst) in Hin.
    rewrite Forall_forall in Hlabels. specialize (Hlabels _ Hin).
    destruct (String.eqb_spec (fst kp) "nan"); [contradiction | reflexivity].
  - reflexivity.
Qed.

(** X7: the array-wide overwrite loop is a decision list read backwards: each
    row gets the label of the first rule that matches it when the table is
    scanned from its last rule to its first, and the parser's no-match value
    when no rule matches. *)
Theorem parsers_scan_reversed (na : bool) (values : list (option string))
    (times : list (option Timestamp)) :
  parse_gender na values
  = map (scan_reversed (contains_entry na) gender_mapping "Other") values /\
  parse_race na values
  = map (scan_reversed (contains_entry na) race_mapping "Unknown") values /\
  parse_language na values
  = map (scan_reversed (contains_entry na) language_mapping "nan") values /\
  parse_insurance na values
  = map (scan_reversed (contains_entry na) insurance_mapping "nan") values /\
  parse_careunit na values
  = map (scan_reversed (contains_entry na) careunit_mapping "nan") values /\
  parse_time times = map (scan_reversed hour_between time_mapping "nan") times.
Proof.
  rewrite parse_gender_rows, parse_race_rows, parse_language_rows,
    parse_insurance_rows, parse_careunit_rows, parse_time_rows.
  unfold text_entry, time_entry.
  repeat split; apply map_ext; intros v; rewrite remap_entry_scan; try reflexivity;
    apply scan_reversed_default; repeat constructor; discriminate.
Qed.

(** ** Substring search *)

Lemma startswith_iff (p s : string) :
  PyStr.startswith p s = true <-> exists b, s = p ++ b.
Proof.
  revert s. induction p as [|a p IH]; intros s; simpl.
  - split; [intros _; now exists s | reflexivity].
  - destruct s as [|c s].
    + split; [discriminate | intros [b Hb]; discriminate Hb].
    + rewrite andb_true_iff, Ascii.eqb_eq, IH. split.
      * intros [-> [b ->]]. now exists b.
      * intros [b Hb]. injection Hb as -> ->. split; [reflexivity | now exists b].
Qed.

Lemma contains_iff (p s : string) :
  PyStr.contains p s = true <-> exists a b, s = a ++ p ++ b.
Proof.
  induction s as [|c s IH].
  - simpl. rewrite startswith_iff. split.
    + intros [b Hb]. exists EmptyString, b. exact Hb.
    + intros (a & b & H). destruct a as [|x a]; [now exists b | discriminate H].
  - change (PyStr.contains p (String c s))
      with (PyStr.startswith p (String c s) || PyStr.contains p s).
    rewrite orb_true_iff, startswith_iff, IH. split.
    + intros [[b Hb]|(a & b & ->)].
      * exists EmptyString, b. exact Hb.
      * exists (String c a), b. reflexivity.
    + intros (a & b & H). destruct a as [|x a]; simpl in H.
      * left. now exists b.
      * injection H as -> ->. right. now exists a, b.
Qed.

(** X8: the search of a rule's pattern is a plain substring test: a pattern
    finds something in a text exactly when one of its alternatives occurs in
    it, that is when the text is some prefix, the alternative, some suffix. *)
Theorem re_search_substring (r : regex) (s : string) :
  re_search r s = true <->
  exists p, In p (alternatives r) /\ exists a b, s = a ++ p ++ b.
Proof.
  induction r as [p|r IH|r1 IH1 r2 IH2]; simpl.
  - rewrite contains_iff. split.
    + intros H. exists p. split; [now left | exact H].
    + intros (q & [<-|[]] & H). exact H.
  - exact IH.
  - rewrite orb_true_iff, IH1, IH2. split.
    + intros [(p & Hp & H)|(p & Hp & H)]; exists p; (split; [|exact H]);
        apply in_or_app; [now left | now right].
    + intros (p & Hp & H). apply in_app_or in Hp.
      destruct Hp as [Hp|Hp]; [left | right]; exists p; now split.
Qed.

(** ** Time of day, hour by hour *)

(** X9: although [between] includes both ends of a range, the buckets of
    [parse_time] are half-open in effect: the hours 0 to 5 are labelled
    "00-06", 6 to 11 "06-12", 12 to 17 "12-18" and 18 to 24 "18-24"; only
    the hour of a timestamp matters.  A missing timestamp, like an hour
    outside 0..24, keeps the text "nan". *)
Theorem time_of_day_half_open (values : list (option Timestamp)) (n : nat)
    (v : option Timestamp) :
  nth_error values n = Some v ->
  match v with
  | None => nth_error (parse_time values) n = Some "nan"
  | Some t =>
      ((0 <= hour t < 6)%Z -> nth_error (parse_time values) n = Some "00-06") /\
      ((6 <= hour t < 12)%Z -> nth_error (parse_time values) n = Some "06-12") /\
      ((12 <= hour t < 18)%Z -> nth_error (parse_time values) n = Some "12-18") /\
      ((18 <= hour t <= 24)%Z -> nth_error (parse_time values) n = Some "18-24") /\
      ((hour t < 0 \/ 24 < hour t)%Z -> nth_error (parse_time values) n = Some "nan")
  end.
Proof.
  intros Hv. rewrite parse_time_rows, nth_error_map, Hv. simpl option_map.
  destruct v as [t|]; [|reflexivity].
  destruct (time_entry_cases t) as (H0 & H6 & H12 & H18).
  repeat split; intros H; f_equal; auto.
  unfold time_entry, remap_entry, entry_step, hour_between, between_entry, time_mapping.
  cbn [fold_left fst snd option_map str_of_cell].
  repeat match goal with
    | |- context [(?a <=? ?b)%Z] => destruct (Z.leb_spec a b); try lia
    end; reflexivity.
Qed.

Lemma time_of_day_half_open_witness :
  ((0 <= 5 < 6)%Z ->
   nth_error (parse_time [Some (mkTimestamp 2150 3 14 5 59 59); None]) 0 = Some "00-06") /\
  ((6 <= 5 < 12)%Z ->
   nth_error (parse_time [Some (mkTimestamp 2150 3 14 5 59 59); None]) 0 = Some "06-12") /\
  ((12 <= 5 < 18)%Z ->
   nth_error (parse_time [Some (mkTimestamp 2150 3 14 5 59 59); None]) 0 = Some "12-18") /\
  ((18 <= 5 <= 24)%Z ->
   nth_error (parse_time [Some (mkTimestamp 2150 3 14 5 59 59); None]) 0 = Some "18-24") /\
  ((5 < 0 \/ 24 < 5)%Z ->
   nth_error (parse_time [Some (mkTimestamp 2150 3 14 5 59 59); None]) 0 = Some "nan").
Proof.
  exact (time_of_day_half_open [Some (mkTimestamp 2150 3 14 5 59 59); None] 0%nat
           (Some (mkTimestamp 2150 3 14 5 59 59)) eq_refl).
Defined.

(** ** The anchor-year group descriptor *)

Lemma append_assoc (a b c : string) : (a ++ b) ++ c = a ++ (b ++ c).
Proof. induction a as [|x a IH]; simpl; [reflexivity | now rewrite IH]. Qed.

Lemma rev_onto_app (s : string) : forall acc, PyStr.rev_onto s acc = PyStr.rev s ++ acc.
Proof.
  unfold PyStr.rev.
  induction s as [|c s IH]; intros acc; simpl.
  - reflexivity.
  - rewrite (IH (String c acc)), (IH (String c EmptyString)).
    rewrite append_assoc. reflexivity.
Qed.

Lemma append_empty_r (s : string) : s ++ EmptyString = s.
Proof. induction s as [|c s IH]; simpl; [reflexivity | now rewrite IH]. Qed.

Lemma rev_app (a b : string) : PyStr.rev (a ++ b) = PyStr.rev b ++ PyStr.rev a.
Proof.
  induction a as [|c a IH]; simpl.
  - now rewrite append_empty_r.
  - change (PyStr.rev (String c (a ++ b)))
      with (PyStr.rev_onto (a ++ b) (String c EmptyString)).
    change (PyStr.rev (String c a)) with (PyStr.rev_onto a (String c EmptyString)).
    rewrite (rev_onto_app (a ++ b)), (rev_onto_app a), IH. apply append_assoc.
Qed.

Lemma rev_involutive (s : string) : PyStr.rev (PyStr.rev s) = s.
Proof.
  induction s as [|c s IH]; [reflexivity|].
  change (PyStr.rev (String c s)) with (PyStr.rev_onto s (String c EmptyString)).
  rewrite rev_onto_app, rev_app, IH. reflexivity.
Qed.

Lemma forall_chars_app (f : ascii -> bool) (a b : string) :
  forall_chars f (a ++ b) = forall_chars f a && forall_chars f b.
Proof.
  induction a as [|c a IH]; simpl; [reflexivity | now rewrite IH, andb_assoc].
Qed.

Lemma forall_chars_rev (f : ascii -> bool) (s : string) :
  forall_chars f (PyStr.rev s) = forall_chars f s.
Proof.
  induction s as [|c s IH]; [reflexivity|].
  change (PyStr.rev (String c s)) with (PyStr.rev_onto s (String c EmptyString)).
  rewrite rev_onto_app, forall_chars_app, IH. simpl.
  rewrite andb_true_r. apply andb_comm.
Qed.

(** [strip("")] removes nothing. *)
Lemma strip_no_chars (s : string) : PyStr.strip "" s = s.
Proof.
  assert (H : forall x, PyStr.lstrip "" x = x) by (intros [|c x]; reflexivity).
  unfold PyStr.strip. rewrite !H. apply rev_involutive.
Qed.

Lemma lstrip_space_spaces (ws s : string) :
  forall_chars PyStr.is_space ws = true ->
  PyStr.lstrip_space (ws ++ s) = PyStr.lstrip_space s.
Proof.
  induction ws as [|c ws IH]; simpl; [reflexivity|].
  intros H. apply andb_true_iff in H. destruct H as [Hc Hws].
  rewrite Hc. now apply IH.
Qed.

Lemma digit_not_space (c : ascii) : is_digit c = true -> PyStr.is_space c = false.
Proof.
  destruct c as [b0 b1 b2 b3 b4 b5 b6 b7].
  destruct b0, b1, b2, b3, b4, b5, b6, b7; intros H; try discriminate H; reflexivity.
Qed.

Lemma lstrip_space_digits (s : string) :
  forall_chars is_digit s = true -> PyStr.lstrip_space s = s.
Proof.
  destruct s as [|c s]; [reflexivity|]. simpl. intros H.
  apply andb_true_iff in H. destruct H as [Hc _].
  now rewrite (digit_not_space c Hc).
Qed.

(** White space after the digits is dropped by [int]'s stripping. *)
Lemma strip_space_digits (digits ws : string) :
  forall_chars is_digit digits = true ->
  forall_chars PyStr.is_space ws = true ->
  PyStr.strip_space (digits ++ ws) = digits.
Proof.
  intros Hd Hws. unfold PyStr.strip_space.
  destruct digits as [|c digits].
  - simpl. rewrite <- (append_empty_r ws) at 1.
    rewrite lstrip_space_spaces by exact Hws. reflexivity.
  - assert (Hc : PyStr.is_space c = false).
    { simpl in Hd. apply andb_true_iff in Hd. now apply digit_not_space. }
    change (PyStr.lstrip_space (String c digits ++ ws))
      with (if PyStr.is_space c then PyStr.lstrip_space (digits ++ ws)
            else String c digits ++ ws).
    rewrite Hc, rev_app.
    rewrite lstrip_space_spaces by (now rewrite forall_chars_rev).
    rewrite lstrip_space_digits by (now rewrite forall_chars_rev).
    apply rev_involutive.
Qed.

Lemma split_head (sep : ascii) (h t : string) :
  forall_chars (fun c => negb (Ascii.eqb c sep)) h = true ->
  fst (PyStr.split sep (h ++ String sep t)) = h.
Proof.
  induction h as [|c h IH]; simpl.
  - intros _. rewrite Ascii.eqb_refl. destruct (PyStr.split sep t). reflexivity.
  - intros H. apply andb_true_iff in H. destruct H as [Hc Hh].
    specialize (IH Hh). destruct (PyStr.split sep (h ++ String sep t)) as [h0 t0].
    simpl in IH. subst h0.
    destruct (Ascii.eqb c sep); [discriminate Hc | reflexivity].
Qed.

Lemma split_no_sep (sep : ascii) (h : string) :
  forall_chars (fun c => negb (Ascii.eqb c sep)) h = true ->
  fst (PyStr.split sep h) = h.
Proof.
  induction h as [|c h IH]; simpl; [reflexivity|].
  intros H. apply andb_true_iff in H. destruct H as [Hc Hh].
  specialize (IH Hh). destruct (PyStr.split sep h) as [h0 t0].
  simpl in IH. subst h0.
  destruct (Ascii.eqb c sep); [discriminate Hc | reflexivity].
Qed.

Lemma int_digits_step (c : ascii) (k acc : Z) (s : string) :
  PyStr.digit_of c = Some k ->
  PyStr.int_digits acc (String c s) = PyStr.int_digits (10 * acc + k) s.
Proof. intros H. cbn [PyStr.int_digits]. rewrite H. reflexivity. Qed.

Lemma int_digits_acc (d : Decimal.uint) :
  forall acc : positive,
    PyStr.int_digits (Z.pos acc) (NilEmpty.string_of_uint d)
    = Some (Z.pos (Pos.of_uint_acc d acc)).
Proof.
  induction d; intros acc; cbn [NilEmpty.string_of_uint Pos.of_uint_acc];
    try reflexivity;
    erewrite int_digits_step by reflexivity;
    rewrite <- IHd; f_equal;
    match goal with
    | |- context [Z.of_nat ?n] =>
        let v := eval vm_compute in (Z.of_nat n) in change (Z.of_nat n) with v
    end; lia.
Qed.

Lemma int_digits_zero (d : Decimal.uint) :
  PyStr.int_digits 0 (NilEmpty.string_of_uint d) = Some (Z.of_N (Pos.of_uint d)).
Proof.
  induction d; cbn [NilEmpty.string_of_uint Pos.of_uint];
    try reflexivity;
    erewrite int_digits_step by reflexivity;
    [exact IHd | apply (int_digits_acc d) ..].
Qed.

Lemma string_of_uint_digits (d : Decimal.uint) :
  forall_chars is_digit (NilEmpty.string_of_uint d) = true.
Proof. induction d; simpl; try reflexivity; exact IHd. Qed.

(** [int] undoes [str] on the digits of a number that is not negative. *)
Lemma int_unsigned_of_Z (y : Z) :
  (0 <= y)%Z ->
  forall_chars is_digit (PyStr.of_Z y) = true /\
  (exists c s, PyStr.of_Z y = String c s) /\
  PyStr.int_unsigned (PyStr.of_Z y) = Some y.
Proof.
  intros Hy. unfold PyStr.of_Z. destruct y as [|p|p]; [| |lia].
  - repeat split. now exists "0"%char, EmptyString.
  - cbn [Z.to_int NilEmpty.string_of_int].
    split; [apply string_of_uint_digits|].
    pose proof (Unsigned.to_uint_nonnil p) as Hnil.
    pose proof (int_digits_zero (Pos.to_uint p)) as Hval.
    rewrite Unsigned.of_to in Hval.
    destruct (Pos.to_uint p); [contradiction | ..];
      (split; [eexists _, _; reflexivity | exact Hval]).
Qed.

Lemma forall_chars_impl (f g : ascii -> bool) (s : string) :
  (forall c, f c = true -> g c = true) ->
  forall_chars f s = true -> forall_chars g s = true.
Proof.
  intros Hfg. induction s as [|c s IH]; simpl; [reflexivity|].
  intros H. apply andb_true_iff in H. destruct H as [Hc Hs].
  now rewrite (Hfg c Hc), IH.
Qed.

Lemma digit_not_dash (c : ascii) : is_digit c = true -> negb (Ascii.eqb c "-") = true.
Proof.
  destruct c as [b0 b1 b2 b3 b4 b5 b6 b7].
  destruct b0, b1, b2, b3, b4, b5, b6, b7; intros H; try discriminate H; reflexivity.
Qed.

Lemma space_not_dash (c : ascii) : PyStr.is_space c = true -> negb (Ascii.eqb c "-") = true.
Proof.
  destruct c as [b0 b1 b2 b3 b4 b5 b6 b7].
  destruct b0, b1, b2, b3, b4, b5, b6, b7; intros H; try discriminate H; reflexivity.
Qed.

(** A text that begins with a digit has no sign for [int] to read. *)
Lemma int_of_digit_text (x : string) (c : ascii) (s : string) :
  is_digit c = true ->
  PyStr.strip_space x = String c s ->
  PyStr.int x = match PyStr.int_unsigned (String c s) with
                | Some z =>
                    if (PyStr.max_str_digits <? PyStr.count_digits (String c s))%Z
                    then Raise ValueError else Ok z
                | None => Raise ValueError
                end.
Proof.
  intros Hc Hx. unfold PyStr.int. rewrite Hx.
  destruct c as [b0 b1 b2 b3 b4 b5 b6 b7].
  destruct b0, b1, b2, b3, b4, b5, b6, b7; try discriminate Hc; reflexivity.
Qed.

(** A year of at most four digits is far below the digit limit of [int]. *)
Lemma year_within_digit_limit (y : Z) :
  (0 <= y <= 9999)%Z ->
  (PyStr.max_str_digits <? PyStr.count_digits (PyStr.of_Z y))%Z = false.
Proof.
  intros Hy.
  assert (Hall : forallb (fun hi => forallb (fun lo =>
                   negb (PyStr.max_str_digits
                         <? PyStr.count_digits
                              (PyStr.of_Z (100 * Z.of_nat hi + Z.of_nat lo)))%Z)
                   (seq 0 100)) (seq 0 100) = true) by (vm_compute; reflexivity).
  pose proof (Z.mod_pos_bound y 100 ltac:(lia)) as Hlo.
  assert (Hhi : (0 <= y / 100 < 100)%Z).
  { split; [apply Z.div_pos; lia | apply Z.div_lt_upper_bound; lia]. }
  rewrite forallb_forall in Hall.
  assert (Hin : In (Z.to_nat (y / 100)) (seq 0 100)) by (apply in_seq; lia).
  specialize (Hall _ Hin). rewrite forallb_forall in Hall.
  assert (Hin' : In (Z.to_nat (y mod 100)) (seq 0 100)) by (apply in_seq; lia).
  specialize (Hall _ Hin').
  rewrite !Z2Nat.id in Hall by lia.
  rewrite <- Z.div_mod in Hall by lia.
  now apply negb_true_iff.
Qed.

Lemma int_of_Z_spaces (y : Z) (ws : string) :
  (0 <= y <= 9999)%Z ->
  forall_chars PyStr.is_space ws = true ->
  PyStr.int (PyStr.of_Z y ++ ws) = Ok y.
Proof.
  intros Hy Hws.
  destruct (int_unsigned_of_Z y (proj1 Hy)) as (Hdigits & (c & s & Htext) & Hval).
  assert (Hc : is_digit c = true).
  { rewrite Htext in Hdigits. simpl in Hdigits. now apply andb_true_iff in Hdigits. }
  rewrite (int_of_digit_text _ c s Hc).
  - rewrite <- Htext, Hval, (year_within_digit_limit y Hy). reflexivity.
  - rewrite <- Htext. now apply strip_space_digits.
Qed.

Lemma anchor_offset_digits (y : Z) (ws t : string) :
  (0 <= y <= 9999)%Z ->
  forall_chars PyStr.is_space ws = true ->
  anchor_offset (PyStr.of_Z y ++ ws ++ String "-" t) = Ok (y + 1)%Z /\
  anchor_offset (PyStr.of_Z y ++ ws) = Ok (y + 1)%Z.
Proof.
  intros Hy0 Hws. pose proof (proj1 Hy0) as Hy.
  assert (Hdash : forall_chars (fun c => negb (Ascii.eqb c "-")) (PyStr.of_Z y ++ ws) = true).
  { rewrite forall_chars_app. apply andb_true_iff. split.
    - apply (forall_chars_impl is_digit); [apply digit_not_dash|].
      apply (int_unsigned_of_Z y Hy).
    - apply (forall_chars_impl PyStr.is_space); [apply space_not_dash | exact Hws]. }
  unfold anchor_offset. split.
  - rewrite <- append_assoc, (split_head _ _ _ Hdash), strip_no_chars.
    now rewrite (int_of_Z_spaces y ws Hy0 Hws).
  - rewrite (split_no_sep _ _ Hdash), strip_no_chars.
    now rewrite (int_of_Z_spaces y ws Hy0 Hws).
Qed.

(** X10: of a group descriptor only the first year counts: for a year [y]
    of at most four digits, written in decimal and followed by white space
    that [int] skips (TAB, LF, VT, FF, CR, space), the offset is [y + 1],
    whatever follows the first "-" (and when no "-" follows at all). *)
Theorem anchor_offset_first_year (y : Z) (ws t : string) :
  (0 <= y <= 9999)%Z ->
  forall_chars PyStr.is_space ws = true ->
  anchor_offset (PyStr.of_Z y ++ ws ++ String "-" t) = Ok (y + 1)%Z /\
  anchor_offset (PyStr.of_Z y ++ ws) = Ok (y + 1)%Z.
Proof. apply anchor_offset_digits. Qed.

Lemma anchor_offset_first_year_witness :
  anchor_offset "2011 - 2013" = Ok 2012%Z /\ anchor_offset "2011 " = Ok 2012%Z.
Proof.
  apply (anchor_offset_first_year 2011 " " " 2013"); [lia | reflexivity].
Defined.

Lemma wrap64_small (z : Z) :
  (- 2 ^ 63 <= z < 2 ^ 63)%Z -> wrap64 z = z.
Proof.
  unfold wrap64.
  change (2 ^ 63)%Z with 9223372036854775808%Z.
  change (2 ^ 64)%Z with 18446744073709551616%Z.
  intros H. rewrite Z.mod_small by lia. lia.
Qed.

(** X11: an event at most one year away from the anchor year lands in the
    bucket that starts at the first year of the patient's group: for a group
    text beginning with the start of one of the five buckets, the label is
    that of this bucket. *)
Theorem anchor_group_bucket (da : Z * Z) (ws t : string) (date : Timestamp) (a : Z) :
  In da delta_anchors ->
  forall_chars PyStr.is_space ws = true ->
  (-1 <= year date - a <= 1)%Z ->
  parse_anchor_year_row (PyStr.of_Z (fst da) ++ ws ++ String "-" t, date, a)
  = Ok (anchor_label da).
Proof.
  intros Hda Hws Hnear. unfold parse_anchor_year_row.
  assert (Hstart : (2008 <= fst da <= 2020)%Z).
  { unfold delta_anchors in Hda. simpl in Hda.
    repeat (destruct Hda as [<-|Hda]; [simpl; lia|]). contradiction. }
  rewrite (proj1 (anchor_offset_digits (fst da) ws t ltac:(lia) Hws)). simpl bind.
  unfold delta_entry.
  assert (H63 : (2 ^ 63 = 9223372036854775808)%Z) by reflexivity.
  rewrite (wrap64_small (year date - a)) by lia.
  rewrite (wrap64_small (fst da + 1 + (year date - a))) by lia.
  destruct (anchor_delta_cases (fst da + 1 + (year date - a))) as (H1 & H2 & H3 & H4 & H5 & _).
  unfold delta_anchors in Hda. simpl in Hda. clear H63.
  repeat (destruct Hda as [<-|Hda];
          [cbn [fst] in *; first [apply H1 | apply H2 | apply H3 | apply H4 | apply H5]; lia|]).
  contradiction.
Qed.

Lemma anchor_group_bucket_witness :
  parse_anchor_year_row ("2014 - 2016", mkTimestamp 2181 7 1 0 0 0, 2180%Z)
  = Ok "2014 - 2017".
Proof.
  apply (anchor_group_bucket (2014, 2017)%Z " " " 2016" (mkTimestamp 2181 7 1 0 0 0) 2180).
  - simpl. tauto.
  - reflexivity.
  - simpl. lia.
Defined.


(** ** The two passes of [parse_anchor_year] *)

Lemma apply_rows_raise {A B : Type} (f : A -> result B) (e : exn) (rows : list A) :
  (forall r e', f r = Raise e' -> e' = e) ->
  Exists (fun r => f r = Raise e) rows ->
  apply_rows f rows = Raise e.
Proof.
  intros Honly. induction 1 as [r rows Hr|r rows _ IH]; simpl.
  - now rewrite Hr.
  - rewrite IH. destruct (f r) as [y|e'] eqn:Hf; simpl; [reflexivity|].
    now rewrite (Honly r e' Hf).
Qed.



Lemma parse_anchor_year_cons (g : string) (gs : list string) (d : Timestamp)
    (ds : list Timestamp) (a : Z) (ys : list Z) (out : list string) :
  List.length ds = List.length gs ->
  List.length ys = List.length gs ->
  (parse_anchor_year (g :: gs) (d :: ds) (a :: ys) = Ok out <->
   exists label rest,
     out = label :: rest /\
     parse_anchor_year_row (g, d, a) = Ok label /\
     parse_anchor_year gs ds ys = Ok rest).
Proof.
  intros Hd Hy.
  assert (Hs : same_length gs ds ys = true).
  { unfold same_length. now rewrite Hd, Hy, Nat.eqb_refl. }
  assert (Hs' : same_length (g :: gs) (d :: ds) (a :: ys) = true).
  { unfold same_length. simpl. now rewrite Hd, Hy, Nat.eqb_refl. }
  unfold parse_anchor_year, parse_anchor_year_row. rewrite Hs, Hs'. simpl.
  destruct (anchor_offset g) as [off|e]; simpl.
  - destruct (apply_rows anchor_offset gs) as [offs|e]; simpl.
    + destruct (anchor_delta (delta_entry off d a)) as [label|e]; simpl.
      * destruct (apply_rows anchor_delta _) as [rest|e]; simpl.
        -- split.
           ++ intros H. injection H as <-. now exists label, rest.
           ++ intros (l & r & -> & Hl & Hr). injection Hl as <-. injection Hr as <-.
              reflexivity.
        -- split; [discriminate|]. intros (l & r & _ & _ & Hr). discriminate Hr.
      * split; [discriminate|]. intros (l & r & _ & Hl & _). discriminate Hl.
    + split; [discriminate|]. intros (l & r & _ & _ & Hr). discriminate Hr.
  - split; [discriminate|]. intros (l & r & _ & Hl & _). discriminate Hl.
Qed.

(** X14: on [int64] columns of one length whose offsets fit an [int64]
    column, [parse_anchor_year] returns exactly when every row on its own
    returns, and then with the rows' labels in order: its two passes and a
    single row-by-row pass agree on every result. *)
Theorem parse_anchor_year_by_rows (anchor_year_group : list string) :
  forall (date : list Timestamp) (anchor_year : list Z) (out : list string),
    List.length date = List.length anchor_year_group ->
    List.length anchor_year = List.length anchor_year_group ->
    Forall (fun g => forall z, anchor_offset g = Ok z -> (- 2 ^ 63 <= z < 2 ^ 63)%Z)
           anchor_year_group ->
    Forall (fun d => (1677 <= year d <= 2262)%Z) date ->
    Forall (fun a => (- 2 ^ 63 <= a < 2 ^ 63)%Z) anchor_year ->
    (parse_anchor_year anchor_year_group date anchor_year = Ok out <->
     apply_rows parse_anchor_year_row (anchor_rows anchor_year_group date anchor_year) = Ok out).
Proof.
  induction anchor_year_group as [|g gs IH]; intros [|d ds] [|a ys] out Hd Hy Hg Hdate Ha;
    try discriminate Hd; try discriminate Hy.
  - reflexivity.
  - simpl in Hd, Hy. injection Hd as Hd. injection Hy as Hy.
    rewrite (parse_anchor_year_cons g gs d ds a ys out Hd Hy).
    change (anchor_rows (g :: gs) (d :: ds) (a :: ys))
      with ((g, d, a) :: anchor_rows gs ds ys).
    cbn [apply_rows].
    inversion Hg as [|? ? _ Hg']; subst.
    inversion Hdate as [|? ? _ Hdate']; subst.
    inversion Ha as [|? ? _ Ha']; subst.
    split.
    + intros (label & rest & -> & Hrow & Hrest).
      apply (IH ds ys rest Hd Hy Hg' Hdate' Ha') in Hrest. rewrite Hrow, Hrest. reflexivity.
    + destruct (parse_anchor_year_row (g, d, a)) as [label|e]; simpl; [|discriminate].
      destruct (apply_rows parse_anchor_year_row (anchor_rows gs ds ys)) as [rest|e] eqn:Hrest;
        simpl; [|discriminate].
      intros H. injection H as <-. exists label, rest.
      repeat split. now apply (IH ds ys rest Hd Hy Hg' Hdate' Ha').
Qed.

Lemma parse_anchor_year_by_rows_witness :
  parse_anchor_year ["2008 - 2010"; "2017 - 2019"]
    [mkTimestamp 2151 1 1 0 0 0; mkTimestamp 2153 1 1 0 0 0] [2150%Z; 2150%Z]
  = Ok ["2008 - 2011"; "2020 - 2023"]
  <-> apply_rows parse_anchor_year_row
        (anchor_rows ["2008 - 2010"; "2017 - 2019"]
           [mkTimestamp 2151 1 1 0 0 0; mkTimestamp 2153 1 1 0 0 0] [2150%Z; 2150%Z])
      = Ok ["2008 - 2011"; "2020 - 2023"].
Proof.
  apply (parse_anchor_year_by_rows ["2008 - 2010"; "2017 - 2019"]
           [mkTimestamp 2151 1 1 0 0 0; mkTimestamp 2153 1 1 0 0 0] [2150%Z; 2150%Z]);
    try reflexivity.
  - apply Forall_cons; [|apply Forall_cons; [|apply Forall_nil]];
      intros z Hz; injection Hz as <-;
      change (2 ^ 63)%Z with 9223372036854775808%Z; lia.
  - apply Forall_cons; [|apply Forall_cons; [|apply Forall_nil]]; simpl; lia.
  - apply Forall_cons; [|apply Forall_cons; [|apply Forall_nil]];
      change (2 ^ 63)%Z with 9223372036854775808%Z; lia.
Defined.

(** ** The order of floats at the BMI thresholds *)

Lemma SFleb_trans (A B X : spec_float) :
  SFleb A B = true -> SFleb B X = true -> SFleb A X = true.
Proof.
  unfold SFleb.
  destruct A as [sa|sa| |sa ma ea], B as [sb|sb| |sb mb eb], X as [sx|sx| |sx mx ex];
    simpl; try discriminate;
    try destruct sa; try destruct sb; try destruct sx; simpl; try discriminate;
    try reflexivity;
    split_compare; simpl; try discriminate; try reflexivity; intros; exfalso; subst; lia.
Qed.

Lemma leb_trans (a b x : float) :
  (a <=? b)%float = true -> (b <=? x)%float = true -> (a <=? x)%float = true.
Proof. rewrite !leb_spec. apply SFleb_trans. Qed.

Lemma leb_not_ltb (a x : float) : (a <=? x)%float = true -> (x <? a)%float = false.
Proof.
  rewrite leb_spec, ltb_spec. unfold SFleb, SFltb.
  destruct (SFcompare (Prim2SF a) (Prim2SF x)) as [c|] eqn:H; [|discriminate].
  rewrite (SFcompare_antisym _ _ _ H). destruct c; try discriminate; reflexivity.
Qed.

(** A BMI of at least [c] is at least every threshold [t] below [c], and
    not below it. *)
Lemma above (t c x : float) :
  (t <=? c)%float = true -> (c <=? x)%float = true ->
  (t <=? x)%float = true /\ (x <? t)%float = false.
Proof.
  intros Htc Hcx. pose proof (leb_trans t c x Htc Hcx) as Htx.
  split; [exact Htx | now apply leb_not_ltb].
Qed.

Lemma SFcompare_refl (X : spec_float) : X <> S754_nan -> SFcompare X X = Some Eq.
Proof.
  destruct X as [s|s| |s m e]; simpl; try congruence; intros _.
  - destruct s; reflexivity.
  - rewrite Z.compare_refl.
    change (Pos.compare_cont Eq m m) with (Pos.compare m m).
    rewrite Pos.compare_refl. destruct s; reflexivity.
Qed.

Lemma is_nan_SF (x : float) : PrimFloat.is_nan x = true <-> Prim2SF x = S754_nan.
Proof.
  unfold PrimFloat.is_nan. rewrite eqb_spec. unfold SFeqb. split.
  - intros H. destruct (Prim2SF x) as [s|s| |s m e] eqn:E; try reflexivity;
      rewrite SFcompare_refl in H by discriminate; discriminate H.
  - intros ->. reflexivity.
Qed.

Lemma mul_nan_r (x y : float) :
  PrimFloat.is_nan y = true -> PrimFloat.is_nan (x * y) = true.
Proof.
  rewrite !is_nan_SF, mul_spec. intros ->. unfold SF64mul, SFmul.
  destruct (Prim2SF x); reflexivity.
Qed.

Lemma mul_nan_l (x y : float) :
  PrimFloat.is_nan x = true -> PrimFloat.is_nan (x * y) = true.
Proof. rewrite !is_nan_SF, mul_spec. intros ->. reflexivity. Qed.

Lemma div_nan_l (x y : float) :
  PrimFloat.is_nan x = true -> PrimFloat.is_nan (x / y) = true.
Proof. rewrite !is_nan_SF, div_spec. intros ->. reflexivity. Qed.

Lemma div_nan_r (x y : float) :
  PrimFloat.is_nan y = true -> PrimFloat.is_nan (x / y) = true.
Proof.
  rewrite !is_nan_SF, div_spec. intros ->. unfold SF64div, SFdiv.
  destruct (Prim2SF x); reflexivity.
Qed.

(** A missing weight or height makes the BMI a NaN. *)
Lemma bmi_of_nan (w h : float) :
  PrimFloat.is_nan w = true \/ PrimFloat.is_nan h = true ->
  PrimFloat.is_nan (bmi_of w h) = true.
Proof.
  unfold bmi_of, pow_neg2. intros [Hw|Hh].
  - now apply mul_nan_l.
  - now apply mul_nan_r, div_nan_r, mul_nan_l, div_nan_l.
Qed.

Lemma nan_compares_false (x c : float) :
  PrimFloat.is_nan x = true -> (x <? c)%float = false /\ (c <=? x)%float = false.
Proof.
  rewrite is_nan_SF, ltb_spec, leb_spec. intros ->. unfold SFltb, SFleb. simpl.
  split; [reflexivity|]. destruct (Prim2SF c); reflexivity.
Qed.

(** A BMI that is NaN fails every test of [__parse__], which then never reads
    the race. *)
Lemma parse_nan (bmi : float) (race : option string) :
  PrimFloat.is_nan bmi = true -> __parse__ bmi race = Ok "Unknown or Unavailable".
Proof.
  intros H. unfold __parse__.
  rewrite (proj1 (nan_compares_false bmi 16.5 H)).
  rewrite (proj2 (nan_compares_false bmi 16.5 H)).
  rewrite (proj2 (nan_compares_false bmi 18.5 H)). reflexivity.
Qed.

Lemma parse_label_closed (bmi : float) (race : option string) (label : string) :
  __parse__ bmi race = Ok label -> In label bmi_labels.
Proof.
  unfold __parse__, bmi_labels.
  repeat match goal with
    | |- context [if ?b then _ else _] => destruct b
    | |- context [match ?r with Some _ => _ | None => _ end] => destruct r
    end; intros H; try discriminate H; injection H as <-; simpl; tauto.
Qed.

(** Without a race, a BMI of at least 18.5 reaches [ethnicity.lower()]. *)
Lemma parse_no_race (bmi : float) :
  (18.5 <=? bmi)%float = true -> __parse__ bmi None = Raise AttributeError.
Proof.
  intros H. unfold __parse__.
  rewrite (proj2 (above 16.5 18.5 bmi eq_refl H)).
  rewrite (leb_not_ltb 18.5 bmi H), andb_false_r, H. reflexivity.
Qed.

(** [__parse__] raises nothing else, and only there. *)
Lemma parse_raises (bmi : float) (race : option string) (e : exn) :
  __parse__ bmi race = Raise e ->
  e = AttributeError /\ race = None /\ (18.5 <=? bmi)%float = true.
Proof.
  destruct race as [ethnicity|].
  - destruct (parse_returns bmi ethnicity) as (label & Hlabel & _).
    rewrite Hlabel. discriminate.
  - unfold __parse__.
    destruct (bmi <? 16.5)%float; [discriminate|].
    destruct ((16.5 <=? bmi) && (bmi <? 18.5))%float; [discriminate|].
    destruct (18.5 <=? bmi)%float; [|discriminate].
    intros H. injection H as <-. repeat split.
Qed.

(** ** [Series.apply] over the rows of a batch *)

Lemma apply_rows_app {A B : Type} (f : A -> result B) (rows1 rows2 : list A) :
  apply_rows f (rows1 ++ rows2)%list
  = (out1 <- apply_rows f rows1 ;;
     out2 <- apply_rows f rows2 ;;
     Ok (out1 ++ out2)%list).
Proof.
  induction rows1 as [|r rows1 IH]; simpl.
  - destruct (apply_rows f rows2); reflexivity.
  - destruct (f r) as [y|e]; simpl; [|reflexivity].
    rewrite IH. destruct (apply_rows f rows1) as [out1|e]; simpl; [|reflexivity].
    destruct (apply_rows f rows2); reflexivity.
Qed.

Lemma apply_rows_raised {A B : Type} (f : A -> result B) (e : exn) (rows : list A) :
  apply_rows f rows = Raise e -> Exists (fun r => f r = Raise e) rows.
Proof.
  induction rows as [|r rows IH]; simpl; [discriminate|].
  destruct (f r) as [y|e'] eqn:Hf; simpl.
  - destruct (apply_rows f rows) as [out|e'']; simpl; [discriminate|].
    intros H. injection H as ->. apply Exists_cons_tl. now apply IH.
  - intros H. injection H as ->. now apply Exists_cons_hd.
Qed.

Lemma apply_rows_labels {A B : Type} (f : A -> result B) (rows : list A) :
  forall out : list B,
    apply_rows f rows = Ok out ->
    Forall (fun y => exists r, In r rows /\ f r = Ok y) out.
Proof.
  induction rows as [|r rows IH]; simpl; intros out H.
  - injection H as <-. constructor.
  - destruct (f r) as [y|e] eqn:Hf; simpl in H; [|discriminate H].
    destruct (apply_rows f rows) as [ys|e]; simpl in H; [|discriminate H].
    injection H as <-. constructor.
    + exists r. split; [now left | exact Hf].
    + specialize (IH ys eq_refl). rewrite Forall_forall in IH. apply Forall_forall.
      intros y' Hy'. destruct (IH y' Hy') as (r' & Hr' & Hf').
      exists r'. split; [now right | exact Hf'].
Qed.

Lemma apply_rows_const {A B : Type} (f : A -> result B) (g : A -> B) (rows : list A) :
  Forall (fun r => f r = Ok (g r)) rows -> apply_rows f rows = Ok (map g rows).
Proof.
  induction 1 as [|r rows Hr _ IH]; simpl; [reflexivity|]. now rewrite Hr, IH.
Qed.

Lemma parse_bmi_by_row (values : list bmi_row) (impute_heights : bool) :
  parse_bmi values impute_heights
  = apply_rows (fun r => __parse__ (row_bmi impute_heights values r) (race r)) values.
Proof. apply parse_bmi_rows. Qed.

(** ** What [parse_bmi] returns and raises *)

(** X15: when every row has a race text, [parse_bmi] raises nothing: it
    returns one label per row, each among the six labels of the classifier;
    no float, NaN and infinities included, escapes its chains of tests. *)
Theorem parse_bmi_total (values : list bmi_row) (impute_heights : bool) :
  Forall (fun r => race r <> None) values ->
  exists out,
    parse_bmi values impute_heights = Ok out /\
    List.length out = List.length values /\
    Forall (fun label => In label bmi_labels) out.
Proof.
  intros Hrace.
  destruct (parse_bmi_returns values impute_heights Hrace) as (out & Hout & Hlen).
  exists out. repeat split; try assumption.
  rewrite parse_bmi_by_row in Hout.
  pose proof (apply_rows_labels _ _ _ Hout) as Hlabels.
  rewrite Forall_forall in Hlabels. apply Forall_forall.
  intros label Hl. destruct (Hlabels label Hl) as (r & _ & Hr).
  exact (parse_label_closed _ _ _ Hr).
Qed.

Lemma parse_bmi_total_witness :
  exists out,
    parse_bmi [mkRow 60 PrimFloat.nan (Some "WHITE"); mkRow 0 0 (Some "ASIAN")] true = Ok out /\
    List.length out = 2%nat /\
    Forall (fun label => In label bmi_labels) out.
Proof.
  apply (parse_bmi_total [mkRow 60 PrimFloat.nan (Some "WHITE"); mkRow 0 0 (Some "ASIAN")] true).
  repeat constructor; discriminate.
Defined.

(** X16: whatever the routines for the mean and the power compute,
    [parse_bmi] raises exactly when some row has no race and a BMI, as the
    call computes it, of at least 18.5; the exception is then AttributeError
    and the whole batch is lost.  Rows without a race whose BMI is below 18.5
    or NaN are harmless. *)
Theorem parse_bmi_raises_iff (series_mean : list float -> float)
    (power_neg2 : float -> float) (values : list bmi_row) (impute_heights : bool)
    (e : exn) :
  parse_bmi_with series_mean power_neg2 values impute_heights = Raise e <->
  e = AttributeError /\
  Exists (fun r =>
            race r = None /\
            (18.5 <=? row_bmi_with series_mean power_neg2 impute_heights values r)%float
            = true)
         values.
Proof.
  rewrite parse_bmi_with_rows. split.
  - intros H. apply apply_rows_raised in H.
    assert (He : e = AttributeError).
    { apply Exists_exists in H. destruct H as (r & _ & Hr).
      exact (proj1 (parse_raises _ _ _ Hr)). }
    split; [exact He|]. subst e.
    apply Exists_exists in H. destruct H as (r & Hin & Hr).
    apply Exists_exists. exists r. split; [exact Hin|].
    exact (proj2 (parse_raises _ _ _ Hr)).
  - intros [-> H]. apply apply_rows_raise.
    + intros r e' Hr. exact (proj1 (parse_raises _ _ _ Hr)).
    + apply Exists_exists in H. destruct H as (r & Hin & Hnone & Hbmi).
      apply Exists_exists. exists r. split; [exact Hin|].
      rewrite Hnone. now apply parse_no_race.
Qed.

(** X17: the decision table of [__parse__].  From 16.5 up to 18.5 the label
    is "Underweight" whatever the race; with an ethnicity text containing
    "asian" the labels are "Normal" on [18.5, 23), "Overweight" on [23, 25)
    and "Obesity" from 25 on; with any other text they are "Normal" on
    [18.5, 25), "Overweight" on [25, 30) and "Obesity" from 30 on. *)
Theorem bmi_decision_table (bmi : float) (ethnicity : string) :
  ((16.5 <=? bmi)%float = true -> (bmi <? 18.5)%float = true ->
   forall race, __parse__ bmi race = Ok "Underweight") /\
  (PyStr.contains "asian" (PyStr.lower ethnicity) = true ->
   ((18.5 <=? bmi)%float = true -> (bmi <? 23.0)%float = true ->
    __parse__ bmi (Some ethnicity) = Ok "Normal") /\
   ((23.0 <=? bmi)%float = true -> (bmi <? 25.0)%float = true ->
    __parse__ bmi (Some ethnicity) = Ok "Overweight") /\
   ((25.0 <=? bmi)%float = true ->
    __parse__ bmi (Some ethnicity) = Ok "Obesity")) /\
  (PyStr.contains "asian" (PyStr.lower ethnicity) = false ->
   ((18.5 <=? bmi)%float = true -> (bmi <? 25.0)%float = true ->
    __parse__ bmi (Some ethnicity) = Ok "Normal") /\
   ((25.0 <=? bmi)%float = true -> (bmi <? 30.0)%float = true ->
    __parse__ bmi (Some ethnicity) = Ok "Overweight") /\
   ((30.0 <=? bmi)%float = true ->
    __parse__ bmi (Some ethnicity) = Ok "Obesity")).
Proof.
  split; [|split].
  - intros Hlo Hhi race. unfold __parse__.
    rewrite (leb_not_ltb _ _ Hlo), Hlo, Hhi. reflexivity.
  - intros Hasian. repeat split; intros Hlo; [intros Hhi| intros Hhi|];
      unfold __parse__; rewrite Hasian.
    + rewrite (proj2 (above 16.5 18.5 bmi eq_refl Hlo)), (leb_not_ltb _ _ Hlo),
        andb_false_r, Hlo, Hhi. reflexivity.
    + rewrite (proj2 (above 16.5 23.0 bmi eq_refl Hlo)),
        (proj2 (above 18.5 23.0 bmi eq_refl Hlo)), andb_false_r,
        (proj1 (above 18.5 23.0 bmi eq_refl Hlo)), (leb_not_ltb _ _ Hlo), Hlo, Hhi.
      reflexivity.
    + rewrite (proj2 (above 16.5 25.0 bmi eq_refl Hlo)),
        (proj2 (above 18.5 25.0 bmi eq_refl Hlo)), andb_false_r,
        (proj1 (above 18.5 25.0 bmi eq_refl Hlo)),
        (proj2 (above 23.0 25.0 bmi eq_refl Hlo)), (leb_not_ltb _ _ Hlo), Hlo.
      rewrite !andb_false_r. reflexivity.
  - intros Hother. repeat split; intros Hlo; [intros Hhi| intros Hhi|];
      unfold __parse__; rewrite Hother.
    + rewrite (proj2 (above 16.5 18.5 bmi eq_refl Hlo)), (leb_not_ltb _ _ Hlo),
        andb_false_r, Hlo, Hhi. reflexivity.
    + rewrite (proj2 (above 16.5 25.0 bmi eq_refl Hlo)),
        (proj2 (above 18.5 25.0 bmi eq_refl Hlo)), andb_false_r,
        (proj1 (above 18.5 25.0 bmi eq_refl Hlo)), (leb_not_ltb _ _ Hlo), Hlo, Hhi.
      reflexivity.
    + rewrite (proj2 (above 16.5 30.0 bmi eq_refl Hlo)),
        (proj2 (above 18.5 30.0 bmi eq_refl Hlo)), andb_false_r,
        (proj1 (above 18.5 30.0 bmi eq_refl Hlo)),
        (proj2 (above 25.0 30.0 bmi eq_refl Hlo)), (leb_not_ltb _ _ Hlo), Hlo.
      rewrite !andb_false_r. reflexivity.
Qed.

Lemma bmi_decision_table_witness :
  __parse__ 17 None = Ok "Underweight" /\
  __parse__ 24 (Some "ASIAN - CHINESE") = Ok "Overweight" /\
  __parse__ 24 (Some "WHITE") = Ok "Normal" /\
  __parse__ 35 (Some "BLACK/AFRICAN AMERICAN") = Ok "Obesity".
Proof.
  split; [|split; [|split]].
  - exact (proj1 (bmi_decision_table 17 "") eq_refl eq_refl None).
  - exact (proj1 (proj2 (proj1 (proj2 (bmi_decision_table 24 "ASIAN - CHINESE")) eq_refl))
             eq_refl eq_refl).
  - exact (proj1 (proj2 (proj2 (bmi_decision_table 24 "WHITE")) eq_refl) eq_refl eq_refl).
  - exact (proj2 (proj2 (proj2 (proj2 (bmi_decision_table 35 "BLACK/AFRICAN AMERICAN"))
                           eq_refl)) eq_refl).
Defined.

(** ** Missing and zero measurements *)

(** X18: a row whose weight is missing, or whose height is missing while
    heights are not imputed, is labelled "Unknown or Unavailable": its BMI is
    NaN, every test fails and the race is never read, so the row cannot
    raise even when its race is missing too. *)
Theorem missing_measurement_unknown (values : list bmi_row) (impute_heights : bool)
    (i : nat) (r : bmi_row) :
  nth_error values i = Some r ->
  PrimFloat.is_nan (weight r) = true \/
  (impute_heights = false /\ PrimFloat.is_nan (height r) = true) ->
  __parse__ (row_bmi impute_heights values r) (race r) = Ok "Unknown or Unavailable" /\
  (forall out, parse_bmi values impute_heights = Ok out ->
               nth_error out i = Some "Unknown or Unavailable").
Proof.
  intros Hr Hmissing.
  assert (Hrow : __parse__ (row_bmi impute_heights values r) (race r)
                 = Ok "Unknown or Unavailable").
  { apply parse_nan. unfold row_bmi. apply bmi_of_nan.
    destruct Hmissing as [Hw|[-> Hh]]; [now left | right; exact Hh]. }
  split; [exact Hrow|].
  intros out Hout. rewrite parse_bmi_by_row in Hout.
  destruct (apply_rows_nth _ _ _ _ _ Hout Hr) as (y & Hy & Hn).
  rewrite Hrow in Hy. injection Hy as <-. exact Hn.
Qed.

Lemma missing_measurement_unknown_witness :
  __parse__ (row_bmi false [mkRow 70 170 (Some "WHITE"); mkRow 80 PrimFloat.nan None]
               (mkRow 80 PrimFloat.nan None)) None
  = Ok "Unknown or Unavailable" /\
  (forall out,
      parse_bmi [mkRow 70 170 (Some "WHITE"); mkRow 80 PrimFloat.nan None] false = Ok out ->
      nth_error out 1 = Some "Unknown or Unavailable").
Proof.
  apply (missing_measurement_unknown
           [mkRow 70 170 (Some "WHITE"); mkRow 80 PrimFloat.nan None] false
           1%nat (mkRow 80 PrimFloat.nan None) eq_refl).
  right. split; reflexivity.
Defined.

Lemma nanmean_all_missing (xs : list float) :
  Forall (fun x => PrimFloat.is_nan x = true) xs -> nanmean xs = PrimFloat.nan.
Proof.
  intros H. unfold nanmean.
  assert (Hnone : filter (fun x => negb (PrimFloat.is_nan x)) xs = []).
  { induction H as [|x xs Hx _ IH]; simpl; [reflexivity|]. now rewrite Hx. }
  rewrite Hnone. reflexivity.
Qed.

(** X19: imputation needs a height to impute from: when every height of the
    batch is missing, the mean is NaN, nothing is filled in and every row is
    labelled "Unknown or Unavailable", with imputation as without. *)
Theorem no_height_to_impute (values : list bmi_row) (impute_heights : bool) :
  Forall (fun r => PrimFloat.is_nan (height r) = true) values ->
  parse_bmi values impute_heights
  = Ok (map (fun _ => "Unknown or Unavailable") values).
Proof.
  intros Hall. rewrite parse_bmi_by_row.
  apply apply_rows_const.
  assert (Hmean : nanmean (map height values) = PrimFloat.nan).
  { apply nanmean_all_missing. rewrite Forall_map. exact Hall. }
  rewrite Forall_forall in Hall. apply Forall_forall. intros r Hr.
  apply parse_nan. unfold row_bmi. apply bmi_of_nan. right.
  unfold height_used, fillna. rewrite Hmean, (Hall r Hr).
  destruct impute_heights; [reflexivity | exact (Hall r Hr)].
Qed.

Lemma no_height_to_impute_witness :
  parse_bmi [mkRow 70 PrimFloat.nan (Some "WHITE"); mkRow 80 PrimFloat.nan None] true
  = Ok ["Unknown or Unavailable"; "Unknown or Unavailable"].
Proof.
  apply (no_height_to_impute
           [mkRow 70 PrimFloat.nan (Some "WHITE"); mkRow 80 PrimFloat.nan None] true).
  repeat constructor.
Defined.

Lemma zero_height_bmi (w h : float) :
  (h =? 0)%float = true -> (0 <? w)%float = true ->
  Prim2SF (bmi_of w h) = S754_infinity false.
Proof.
  rewrite eqb_spec, ltb_spec.
  change (Prim2SF 0) with (S754_zero false).
  intros Hh Hw. unfold bmi_of, pow_neg2.
  assert (E1 : exists s, Prim2SF (h / 100) = S754_zero s).
  { rewrite div_spec. unfold SFeqb in Hh.
    destruct (Prim2SF h) as [s|s| |s m e]; simpl in Hh;
      try discriminate Hh; try (destruct s; discriminate Hh).
    exists s. destruct s; reflexivity. }
  destruct E1 as [s E1].
  assert (E2 : Prim2SF (h / 100 * (h / 100)) = S754_zero false).
  { rewrite mul_spec, E1. destruct s; reflexivity. }
  assert (E3 : Prim2SF (1 / (h / 100 * (h / 100))) = S754_infinity false).
  { rewrite div_spec, E2. reflexivity. }
  rewrite mul_spec, E3. unfold SFltb in Hw.
  destruct (Prim2SF w) as [sw|sw| |sw mw ew]; simpl in Hw; try discriminate Hw;
    destruct sw; try discriminate Hw; reflexivity.
Qed.

Lemma infinity_compares (x c : float) :
  Prim2SF x = S754_infinity false -> (c <=? c)%float = true ->
  (x <? c)%float = false /\ (c <=? x)%float = true.
Proof.
  rewrite ltb_spec, !leb_spec. intros -> Hc.
  apply SFleb_defined in Hc. destruct Hc as [Hc _].
  unfold SFltb, SFleb.
  destruct (Prim2SF c) as [s|s| |s m e]; try congruence; simpl;
    destruct s; split; reflexivity.
Qed.

(** X20: a height of zero is no error: the division yields an infinite BMI,
    and a row of positive weight with a race text is labelled "Obesity". *)
Theorem zero_height_obesity (values : list bmi_row) (impute_heights : bool)
    (i : nat) (r : bmi_row) (ethnicity : string) :
  nth_error values i = Some r ->
  (height r =? 0)%float = true ->
  (0 <? weight r)%float = true ->
  race r = Some ethnicity ->
  __parse__ (row_bmi impute_heights values r) (race r) = Ok "Obesity" /\
  (forall out, parse_bmi values impute_heights = Ok out -> nth_error out i = Some "Obesity").
Proof.
  intros Hr Hh Hw Hrace.
  assert (Hpresent : PrimFloat.is_nan (height r) = false).
  { unfold PrimFloat.is_nan.
    assert (Hrefl : (height r =? height r)%float = true).
    { rewrite eqb_spec in *. unfold SFeqb in *.
      destruct (Prim2SF (height r)) as [s|s| |s m e]; simpl in Hh;
        try discriminate Hh; try (destruct s; discriminate Hh).
      rewrite SFcompare_refl by discriminate. reflexivity. }
    now rewrite Hrefl. }
  assert (Hbmi : Prim2SF (row_bmi impute_heights values r) = S754_infinity false).
  { unfold row_bmi, height_used, fillna. rewrite Hpresent.
    destruct impute_heights; now apply zero_height_bmi. }
  assert (Hrow : __parse__ (row_bmi impute_heights values r) (race r) = Ok "Obesity").
  { rewrite Hrace. unfold __parse__.
    destruct (infinity_compares _ 16.5 Hbmi eq_refl) as [L1 G1].
    destruct (infinity_compares _ 18.5 Hbmi eq_refl) as [L2 G2].
    destruct (infinity_compares _ 23.0 Hbmi eq_refl) as [L3 G3].
    destruct (infinity_compares _ 25.0 Hbmi eq_refl) as [L4 G4].
    destruct (infinity_compares _ 30.0 Hbmi eq_refl) as [L5 G5].
    rewrite L1, L2, G2, L3, L4, G4, L5, G5, !andb_false_r.
    destruct (PyStr.contains "asian" (PyStr.lower ethnicity)); reflexivity. }
  split; [exact Hrow|].
  intros out Hout. rewrite parse_bmi_by_row in Hout.
  destruct (apply_rows_nth _ _ _ _ _ Hout Hr) as (y & Hy & Hn).
  rewrite Hrow in Hy. injection Hy as <-. exact Hn.
Qed.

Lemma zero_height_obesity_witness :
  __parse__ (row_bmi false [mkRow 45 0 (Some "WHITE")] (mkRow 45 0 (Some "WHITE")))
            (Some "WHITE") = Ok "Obesity" /\
  (forall out, parse_bmi [mkRow 45 0 (Some "WHITE")] false = Ok out ->
               nth_error out 0 = Some "Obesity").
Proof.
  exact (zero_height_obesity [mkRow 45 0 (Some "WHITE")] false 0%nat
           (mkRow 45 0 (Some "WHITE")) "WHITE" eq_refl eq_refl eq_refl eq_refl).
Defined.

(** ** Imputation and the rows it leaves alone *)

(** X21: imputation touches only the rows without a height: whatever the
    routines for the mean and the power compute, a row whose height is
    present gets the same label with imputation as without, in any batch that
    holds it (every row having a race text), whatever the other rows are:
    the label of its own weight and height. *)
Theorem present_height_untouched (series_mean : list float -> float)
    (power_neg2 : float -> float) (b1 b2 : list bmi_row) (impute1 impute2 : bool)
    (i j : nat) (r : bmi_row) :
  Forall (fun r => race r <> None) b1 ->
  Forall (fun r => race r <> None) b2 ->
  nth_error b1 i = Some r ->
  nth_error b2 j = Some r ->
  PrimFloat.is_nan (height r) = false ->
  exists out1 out2 label,
    parse_bmi_with series_mean power_neg2 b1 impute1 = Ok out1 /\
    parse_bmi_with series_mean power_neg2 b2 impute2 = Ok out2 /\
    nth_error out1 i = Some label /\
    nth_error out2 j = Some label /\
    __parse__ (weight r * power_neg2 (height r / 100))%float (race r) = Ok label.
Proof.
  intros Hrace1 Hrace2 Hr1 Hr2 Hpresent.
  destruct (parse_bmi_with_returns series_mean power_neg2 b1 impute1 Hrace1)
    as (out1 & Hout1 & _).
  destruct (parse_bmi_with_returns series_mean power_neg2 b2 impute2 Hrace2)
    as (out2 & Hout2 & _).
  exists out1, out2.
  pose proof Hout1 as Hrows1. pose proof Hout2 as Hrows2.
  rewrite parse_bmi_with_rows in Hrows1, Hrows2.
  destruct (apply_rows_nth _ _ _ _ _ Hrows1 Hr1) as (y1 & Hy1 & Hn1).
  destruct (apply_rows_nth _ _ _ _ _ Hrows2 Hr2) as (y2 & Hy2 & Hn2).
  assert (Hsame : forall imp values,
             row_bmi_with series_mean power_neg2 imp values r
             = (weight r * power_neg2 (height r / 100))%float).
  { intros imp values. unfold row_bmi_with, bmi_with, height_used, fillna.
    rewrite Hpresent. destruct imp; reflexivity. }
  rewrite Hsame in Hy1, Hy2. rewrite Hy1 in Hy2. injection Hy2 as <-.
  exists y1. repeat split; assumption.
Qed.

Lemma present_height_untouched_witness :
  exists out1 out2 label,
    parse_bmi_with nanmean pow_neg2
      [mkRow 70 170 (Some "WHITE"); mkRow 60 PrimFloat.nan (Some "ASIAN")] true
    = Ok out1 /\
    parse_bmi_with nanmean pow_neg2
      [mkRow 90 150 (Some "BLACK"); mkRow 70 170 (Some "WHITE")] false = Ok out2 /\
    nth_error out1 0 = Some label /\
    nth_error out2 1 = Some label /\
    __parse__ (70 * pow_neg2 (170 / 100))%float (Some "WHITE") = Ok label.
Proof.
  apply (present_height_untouched nanmean pow_neg2
           [mkRow 70 170 (Some "WHITE"); mkRow 60 PrimFloat.nan (Some "ASIAN")]
           [mkRow 90 150 (Some "BLACK"); mkRow 70 170 (Some "WHITE")]
           true false 0%nat 1%nat (mkRow 70 170 (Some "WHITE"))).
  - repeat constructor; discriminate.
  - repeat constructor; discriminate.
  - reflexivity.
  - reflexivity.
  - reflexivity.
Defined.

(** X22: without imputation no row of [parse_bmi] influences another: a
    batch cut in two gives the labels of the first part followed by those of
    the second, and raises where the first failing row of either part
    raises. *)
Theorem parse_bmi_split (values1 values2 : list bmi_row) :
  parse_bmi (values1 ++ values2)%list false
  = (out1 <- parse_bmi values1 false ;;
     out2 <- parse_bmi values2 false ;;
     Ok (out1 ++ out2)%list).
Proof.
  rewrite !parse_bmi_by_row, apply_rows_app. reflexivity.
Qed.
